(** * The Explore logs panel: staged rendering and duplicate aggregation

    A shallow embedding of
    [packages/grafana-ui/src/components/Logs/Logs.tsx]: the [Logs]
    React component, its two timers, its callbacks towards the owner of
    the panel and the part of [render] that decides what is shown.

    Conventions of the embedding.
    - A JavaScript [number] that the component reads is an integer here:
      [Z] for duplicate counts, [nat] for lengths, [N] for times and
      delays in milliseconds.
    - An optional property ([data?], [meta?], [duplicates?]) is an
      [option]; [None] is JavaScript's [undefined].
    - The component instance and the timer table of the host are one
      record, threaded through the lifecycle methods.
    - A call of a callback received through the props is recorded in a
      list of notifications, in call order. *)

From stdpp Require Import base decidable option list strings gmap.
From Stdlib Require Import ZArith Lia.

Local Open Scope Z_scope.

(** ** Types imported from [@grafana/data]

    The component imports its data types from the package
    [@grafana/data]; their declarations are given here as far as the
    component reads them. *)

Module LogsDedupStrategy.
(** Modelled from the spec: the members of [enum LogsDedupStrategy],
    which the component only compares with each other and with [none]. *)
Inductive t : Set := none | exact | numbers | signature.

#[global] Instance LogsDedupStrategy_eq_dec : EqDecision t.
Proof. solve_decision. Defined.
End LogsDedupStrategy.

Abbreviation LogsDedupStrategy := LogsDedupStrategy.t.

Module LogsMetaKind.
(** Modelled from the spec: the kinds of [enum LogsMetaKind]. The
    component names [Number] and [LabelsMap]; every kind but [LabelsMap]
    is a scalar to it. *)
Inductive t : Set := Number | String | LabelsMap.

#[global] Instance LogsMetaKind_eq_dec : EqDecision t.
Proof. solve_decision. Defined.
End LogsMetaKind.

Abbreviation LogsMetaKind := LogsMetaKind.t.

(** The [value: any] of a meta item: the three shapes the kinds stand for. *)
Inductive MetaValue : Type :=
| VNumber (n : Z)
| VString (s : string)
| VLabels (labels : list (string * string)).

(** [interface LogsMetaItem]: the triple that [render] pushes and reads. *)
Record LogsMetaItem : Type := mkMetaItem {
  label : string;
  value : MetaValue;
  kind : LogsMetaKind;
}.

(** [interface LogRowModel], the properties the panel itself reads:
    the text of the entry and [duplicates?: number]. *)
Record LogRowModel : Type := mkRow {
  entry : string;
  duplicates : option Z;
}.

(** [interface LogsModel]: [rows] is a required array, [meta] is
    optional. [series] is only handed on to the graph and is left out. *)
Record LogsModel : Type := mkLogsModel {
  hasUniqueLabels : bool;
  meta : option (list LogsMetaItem);
  rows : list LogRowModel;
}.

(** ** The component *)

Definition PREVIEW_LIMIT : nat := 100.

(** [interface Props], without the properties that are only passed
    through to children (width, time zone, time range, ...). The two
    scanning callbacks are optional: the flag says whether one is given. *)
Record Props : Type := mkProps {
  data : option LogsModel;
  dedupedData : option LogsModel;
  highlighterExpressions : list string;
  loading : bool;
  scanning : bool;
  scanRange : option string;
  dedupStrategy : LogsDedupStrategy;
  onStartScanning : bool;
  onStopScanning : bool;
}.

(** [interface State]. *)
Record State : Type := mkState {
  deferLogs : bool;
  renderAll : bool;
  showLabels : bool;
  showTime : bool;
}.

#[global] Instance State_eq_dec : EqDecision State.
Proof. solve_decision. Defined.

(** The class property initialiser [state = { deferLogs: true, ... }]. *)
Definition initialState : State :=
  {| deferLogs := true; renderAll := false; showLabels := false; showTime := true |}.

(** The three phases of staged rendering, read off the two flags. *)
Inductive Stage : Set := Deferred | PartialVisible | FullyVisible.

Definition stage (s : State) : Stage :=
  if deferLogs s then Deferred
  else if renderAll s then FullyVisible
  else PartialVisible.

(** ** [render]: the values it computes *)

(** Truthiness of a JavaScript number that is an integer. *)
Definition truthy (n : Z) : bool := negb (n =? 0).

(** The reducer [(sum, row) => (row.duplicates ? sum + row.duplicates : sum)]. *)
Definition addDuplicates (sum : Z) (row : LogRowModel) : Z :=
  match duplicates row with
  | Some d => if truthy d then sum + d else sum
  | None => sum
  end.

(** [dedupedData ? dedupedData.rows.reduce(..., 0) : 0] *)
Definition dedupCount (p : Props) : Z :=
  match dedupedData p with
  | Some dd => fold_left addDuplicates (rows dd) 0
  | None => 0
  end.

(** [dedupStrategy !== LogsDedupStrategy.none && dedupCount > 0] *)
Definition showDuplicates (p : Props) : bool :=
  bool_decide (dedupStrategy p ≠ LogsDedupStrategy.none) && (0 <? dedupCount p).

(** [data && data.rows && data.rows.length > 0]; an array is always truthy. *)
Definition hasData (p : Props) : bool :=
  match data p with
  | Some d => (0 <? length (rows d))%nat
  | None => false
  end.

(** [hasData && dedupedData && dedupedData.hasUniqueLabels ? true : false] *)
Definition hasLabel (p : Props) : bool :=
  hasData p &&
  match dedupedData p with
  | Some dd => hasUniqueLabels dd
  | None => false
  end.

(** The entry pushed on [meta] when a strategy is active. *)
Definition dedupCountItem (p : Props) : LogsMetaItem :=
  {| label := "Dedup count"; value := VNumber (dedupCount p); kind := LogsMetaKind.Number |}.

(** [const meta = data.meta ? [...data.meta] : []] followed by the
    conditional [meta.push]; [d] is the [data] that [render] found present. *)
Definition metaItems (p : Props) (d : LogsModel) : list LogsMetaItem :=
  let meta0 := match meta d with Some m => m | None => [] end in
  if bool_decide (dedupStrategy p ≠ LogsDedupStrategy.none)
  then meta0 ++ [dedupCountItem p]
  else meta0.

(** [dedupedData ? dedupedData.rows : []] *)
Definition processedRows (p : Props) : list LogRowModel :=
  match dedupedData p with
  | Some dd => rows dd
  | None => []
  end.

(** [processedRows.slice(0, PREVIEW_LIMIT)] and [processedRows.slice(PREVIEW_LIMIT)] *)
Definition firstRows (p : Props) : list LogRowModel := take PREVIEW_LIMIT (processedRows p).
Definition lastRows (p : Props) : list LogRowModel := drop PREVIEW_LIMIT (processedRows p).

(** ** [render]: what it returns *)

(** One [<LogRow>] element: its key, its row and the props that differ
    between rows or batches. The second batch gets no
    [highlighterExpressions]. *)
Record LogRowElement : Type := mkLogRowElement {
  key : nat;
  row : LogRowModel;
  rowHighlighterExpressions : option (list string);
  rowShowDuplicates : bool;
  rowShowLabels : bool;
  rowShowTime : bool;
}.

(** What is rendered for a meta item: [renderMetaItem(value, kind)]. *)
Inductive MetaRendering : Type :=
| LabelsSpan (v : MetaValue)
| Plain (v : MetaValue).

Definition renderMetaItem (v : MetaValue) (k : LogsMetaKind) : MetaRendering :=
  if decide (k = LogsMetaKind.LabelsMap) then LabelsSpan v else Plain v.

(** The panel, by region: the meta block (when shown) as label and
    rendered value, the children of [logs-rows] (the row elements and the
    text "Rendering n rows..." as its [n]), the "No logs found." block and
    the scanning block with its text. *)
Record Panel : Type := mkPanel {
  metaBlock : option (list (string * MetaRendering));
  logRows : list LogRowElement;
  renderingRows : option nat;
  noLogsFound : bool;
  scanBlock : option string;
}.

Definition firstBatch (p : Props) (s : State) : list LogRowElement :=
  imap (fun index r =>
          {| key := index; row := r;
             rowHighlighterExpressions := Some (highlighterExpressions p);
             rowShowDuplicates := showDuplicates p;
             rowShowLabels := showLabels s && hasLabel p;
             rowShowTime := showTime s |})
       (firstRows p).

Definition lastBatch (p : Props) (s : State) : list LogRowElement :=
  imap (fun index r =>
          {| key := (PREVIEW_LIMIT + index)%nat; row := r;
             rowHighlighterExpressions := None;
             rowShowDuplicates := showDuplicates p;
             rowShowLabels := showLabels s && hasLabel p;
             rowShowTime := showTime s |})
       (lastRows p).

(** [scanRange ? `Scanning ${rangeUtil.describeTimeRange(scanRange)}` : 'Scanning...'];
    the description of the range is taken as given. *)
Definition scanText (p : Props) : string :=
  match scanRange p with
  | Some described => "Scanning " +:+ described
  | None => "Scanning..."
  end.

(** [render()]: [None] is the [return null] for absent [data]. *)
Definition render (p : Props) (s : State) : option Panel :=
  match data p with
  | None => None
  | Some d =>
      Some {|
        metaBlock :=
          if hasData p
          then Some ((fun item => (label item, renderMetaItem (value item) (kind item)))
                       <$> metaItems p d)
          else None;
        logRows :=
          (if hasData p && negb (deferLogs s) then firstBatch p s else []) ++
          (if hasData p && negb (deferLogs s) && renderAll s then lastBatch p s else []);
        renderingRows :=
          if hasData p && deferLogs s then Some (length (processedRows p)) else None;
        noLogsFound := negb (loading p) && negb (hasData p) && negb (scanning p);
        scanBlock := if scanning p then Some (scanText p) else None;
      |}
  end.

(** The rows on screen, in display order. *)
Definition visibleRows (p : Props) (s : State) : list LogRowModel :=
  match render p s with
  | Some panel => row <$> logRows panel
  | None => []
  end.

(** ** Timers of the host

    [setTimeout] hands out a fresh handle and records the callback with
    the time it becomes due; [clearTimeout] removes the entry. A handle
    is a positive number (a browser never hands out 0, Node hands out an
    object), so the test [if (this.deferLogsTimer)] is the test for
    [null]. The two arrow functions the component passes to [setTimeout]
    are the two constructors of [TimerCallback]; [RevealLogs] carries the
    [renderAll] captured by the closure. *)

Inductive TimerCallback : Set :=
| RevealLogs (renderAll : bool)
| RenderAllLogs.

#[global] Instance TimerCallback_eq_dec : EqDecision TimerCallback.
Proof. solve_decision. Defined.

Record Timer : Set := mkTimer {
  handle : positive;
  delay : N;
  due : N;
  callback : TimerCallback;
}.

(** The component instance ([props], [state], the two timer properties,
    whether it is mounted) together with the host's clock and timers:
    [timers] are the pending ones, [timeouts] every [setTimeout] call
    made so far, oldest first. *)
Record Logs : Type := mkLogs {
  props : Props;
  state : State;
  deferLogsTimer : option positive;
  renderAllTimer : option positive;
  mounted : bool;
  now : N;
  nextHandle : positive;
  timers : list Timer;
  timeouts : list Timer;
}.

Definition setTimeout (cb : TimerCallback) (ms : N) (w : Logs) : positive * Logs :=
  let t := {| handle := nextHandle w; delay := ms; due := (now w + ms)%N; callback := cb |} in
  (nextHandle w,
   {| props := props w; state := state w;
      deferLogsTimer := deferLogsTimer w; renderAllTimer := renderAllTimer w;
      mounted := mounted w; now := now w;
      nextHandle := Pos.succ (nextHandle w);
      timers := timers w ++ [t];
      timeouts := timeouts w ++ [t] |}).

Definition clearTimeout (h : positive) (w : Logs) : Logs :=
  {| props := props w; state := state w;
     deferLogsTimer := deferLogsTimer w; renderAllTimer := renderAllTimer w;
     mounted := mounted w; now := now w; nextHandle := nextHandle w;
     timers := filter (fun t => handle t ≠ h) (timers w);
     timeouts := timeouts w |}.

(** Assignments to the instance. *)
Definition set_deferLogsTimer (h : positive) (w : Logs) : Logs :=
  {| props := props w; state := state w;
     deferLogsTimer := Some h; renderAllTimer := renderAllTimer w;
     mounted := mounted w; now := now w; nextHandle := nextHandle w;
     timers := timers w; timeouts := timeouts w |}.

Definition set_renderAllTimer (h : positive) (w : Logs) : Logs :=
  {| props := props w; state := state w;
     deferLogsTimer := deferLogsTimer w; renderAllTimer := Some h;
     mounted := mounted w; now := now w; nextHandle := nextHandle w;
     timers := timers w; timeouts := timeouts w |}.

Definition set_state (s : State) (w : Logs) : Logs :=
  {| props := props w; state := s;
     deferLogsTimer := deferLogsTimer w; renderAllTimer := renderAllTimer w;
     mounted := mounted w; now := now w; nextHandle := nextHandle w;
     timers := timers w; timeouts := timeouts w |}.

Definition set_props (p : Props) (w : Logs) : Logs :=
  {| props := p; state := state w;
     deferLogsTimer := deferLogsTimer w; renderAllTimer := renderAllTimer w;
     mounted := mounted w; now := now w; nextHandle := nextHandle w;
     timers := timers w; timeouts := timeouts w |}.

Definition set_mounted (b : bool) (w : Logs) : Logs :=
  {| props := props w; state := state w;
     deferLogsTimer := deferLogsTimer w; renderAllTimer := renderAllTimer w;
     mounted := b; now := now w; nextHandle := nextHandle w;
     timers := timers w; timeouts := timeouts w |}.

Definition set_now (t : N) (w : Logs) : Logs :=
  {| props := props w; state := state w;
     deferLogsTimer := deferLogsTimer w; renderAllTimer := renderAllTimer w;
     mounted := mounted w; now := t; nextHandle := nextHandle w;
     timers := timers w; timeouts := timeouts w |}.

(** ** Lifecycle methods *)

(** [data && data.rows ? data.rows.length : 0] *)
Definition rowCount (p : Props) : nat :=
  match data p with
  | Some d => length (rows d)
  | None => 0%nat
  end.

Definition componentDidMount (w : Logs) : Logs :=
  if deferLogs (state w) then
    let renderAll := (rowCount (props w) <=? PREVIEW_LIMIT * 2)%nat in
    let '(h, w1) := setTimeout (RevealLogs renderAll) (N.of_nat (rowCount (props w))) w in
    set_deferLogsTimer h w1
  else w.

Definition componentDidUpdate (prevProps : Props) (prevState : State) (w : Logs) : Logs :=
  if deferLogs prevState && negb (deferLogs (state w)) && negb (renderAll (state w)) then
    let '(h, w1) := setTimeout RenderAllLogs 2000%N w in
    set_renderAllTimer h w1
  else w.

Definition componentWillUnmount (w : Logs) : Logs :=
  let w1 := match deferLogsTimer w with
            | Some h => clearTimeout h w
            | None => w
            end in
  match renderAllTimer w1 with
  | Some h => clearTimeout h w1
  | None => w1
  end.

(** ** React and the host driving the component *)

(** The object given to [this.setState]: the properties it mentions. *)
Record StatePatch : Set := mkPatch {
  patchDeferLogs : option bool;
  patchRenderAll : option bool;
  patchShowLabels : option bool;
  patchShowTime : option bool;
}.

Definition applyPatch (u : StatePatch) (s : State) : State :=
  {| deferLogs := default (deferLogs s) (patchDeferLogs u);
     renderAll := default (renderAll s) (patchRenderAll u);
     showLabels := default (showLabels s) (patchShowLabels u);
     showTime := default (showTime s) (patchShowTime u) |}.

(** [this.setState(u)] on a [PureComponent]: the patch is merged; when
    the state changed the component renders again and
    [componentDidUpdate] runs with the previous state. On an unmounted
    component nothing happens. *)
Definition setState (u : StatePatch) (w : Logs) : Logs :=
  if mounted w then
    let prevState := state w in
    let s := applyPatch u prevState in
    if decide (s = prevState) then w
    else componentDidUpdate (props w) prevState (set_state s w)
  else w.

(** The bodies of the two timer callbacks. *)
Definition runCallback (cb : TimerCallback) (w : Logs) : Logs :=
  match cb with
  | RevealLogs renderAll =>
      setState {| patchDeferLogs := Some false; patchRenderAll := Some renderAll;
                  patchShowLabels := None; patchShowTime := None |} w
  | RenderAllLogs =>
      setState {| patchDeferLogs := None; patchRenderAll := Some true;
                  patchShowLabels := None; patchShowTime := None |} w
  end.

(** [onChangeLabels] and [onChangeTime], given [event.target.checked]. *)
Definition onChangeLabels (checked : bool) (w : Logs) : Logs :=
  setState {| patchDeferLogs := None; patchRenderAll := None;
              patchShowLabels := Some checked; patchShowTime := None |} w.

Definition onChangeTime (checked : bool) (w : Logs) : Logs :=
  setState {| patchDeferLogs := None; patchRenderAll := None;
              patchShowLabels := None; patchShowTime := Some checked |} w.

(** A new instance: the constructor (class property initialisers), then
    [componentDidMount]. The host starts at time [t0] with no timer. *)
Definition construct (p : Props) (t0 : N) : Logs :=
  {| props := p; state := initialState;
     deferLogsTimer := None; renderAllTimer := None;
     mounted := true; now := t0; nextHandle := 1%positive;
     timers := []; timeouts := [] |}.

Definition mount (p : Props) (t0 : N) : Logs := componentDidMount (construct p t0).

(** What can happen to a mounted instance. *)
Inductive Event : Type :=
| Deliver (p : Props)
| Elapse (dt : N)
| Fire (h : positive)
| ChangeLabels (checked : bool)
| ChangeTime (checked : bool)
| Unmount.

Definition findTimer (h : positive) (w : Logs) : option Timer :=
  list_find (fun t => handle t = h) (timers w) ≫= fun '(_, t) => Some t.

(** One event. [Deliver]: the parent passes new props, the component
    renders and [componentDidUpdate] runs with an unchanged state.
    [Elapse]: time passes. [Fire h]: the host runs the callback of the
    pending timer [h], which it does no earlier than the timer is due,
    and forgets the timer. [Unmount]: [componentWillUnmount] runs and the
    instance is gone. [None]: the event cannot happen in this situation. *)
Definition step (w : Logs) (e : Event) : option Logs :=
  match e with
  | Deliver p =>
      if mounted w then Some (componentDidUpdate (props w) (state w) (set_props p w))
      else None
  | Elapse dt => Some (set_now (now w + dt)%N w)
  | Fire h =>
      match findTimer h w with
      | Some t =>
          if decide (due t ≤ now w)%N
          then Some (runCallback (callback t) (clearTimeout h w))
          else None
      | None => None
      end
  | ChangeLabels checked => if mounted w then Some (onChangeLabels checked w) else None
  | ChangeTime checked => if mounted w then Some (onChangeTime checked w) else None
  | Unmount => if mounted w then Some (set_mounted false (componentWillUnmount w)) else None
  end.

Fixpoint run (w : Logs) (evs : list Event) : option Logs :=
  match evs with
  | [] => Some w
  | e :: evs' =>
      match step w e with
      | Some w' => run w' evs'
      | None => None
      end
  end.

(** The rows on screen for an instance. *)
Definition visibleWindow (w : Logs) : list LogRowModel := visibleRows (props w) (state w).

(** Whether an event is the run of a timer callback. *)
Definition isFire (e : Event) : bool :=
  match e with
  | Fire _ => true
  | _ => false
  end.

(** ** Callbacks towards the owner of the panel *)

(** The runtime values of the string enum [LogLevel]. *)
Definition LogLevel : Set := string.

(** What reading a property of the enum object can give: the value of
    a member, what [Object.prototype] holds under the name (a function;
    for the accessor [__proto__] the prototype object itself), or
    [undefined]. *)
Inductive PropertyValue : Set :=
| MemberValue (v : LogLevel)
| InheritedValue (name : string)
| UndefinedValue.

#[global] Instance PropertyValue_eq_dec : EqDecision PropertyValue.
Proof. solve_decision. Defined.

(** A call made on the outside: one of the callbacks of the props, or
    [event.preventDefault()]. [ToggleLogLevel] carries the array as it is
    passed. *)
Inductive Notification : Set :=
| DedupStrategyChange (dedupStrategy : LogsDedupStrategy)
| ToggleLogLevel (hiddenLogLevels : list PropertyValue)
| PreventDefault
| StartScanning
| StopScanning.

Definition onChangeDedup (p : Props) (dedup : LogsDedupStrategy) : list Notification :=
  if decide (dedupStrategy p = dedup)
  then [DedupStrategyChange LogsDedupStrategy.none]
  else [DedupStrategyChange dedup].

(** [LogLevel[level as LogLevel]]: a property read on the object the
    enum compiles to; the cast exists at compile time only. The own
    properties of that object are the members of the enum, a table from
    names to values declared in [@grafana/data] and a parameter here. A
    name the object does not have itself is looked up on its prototype,
    [Object.prototype], given here by the names it defines (the host's,
    a parameter as well). A name found on neither reads as [undefined].
    The read never throws. *)
Definition readLogLevel (LogLevelEnum : gmap string LogLevel)
    (ObjectPrototype : gset string) (level : string) : PropertyValue :=
  match LogLevelEnum !! level with
  | Some v => MemberValue v
  | None =>
      if decide (level ∈ ObjectPrototype) then InheritedValue level
      else UndefinedValue
  end.

(** [hiddenRawLevels.map(level => LogLevel[level as LogLevel])], then the
    call of [this.props.onToggleLogLevel]. *)
Definition onToggleLogLevel (LogLevelEnum : gmap string LogLevel)
    (ObjectPrototype : gset string) (hiddenRawLevels : list string) : list Notification :=
  let hiddenLogLevels := readLogLevel LogLevelEnum ObjectPrototype <$> hiddenRawLevels in
  [ToggleLogLevel hiddenLogLevels].

Definition onClickScan (p : Props) : list Notification :=
  PreventDefault :: (if onStartScanning p then [StartScanning] else []).

Definition onClickStopScan (p : Props) : list Notification :=
  PreventDefault :: (if onStopScanning p then [StopScanning] else []).

(** ** Vocabulary of the statements *)

(** The sum of the duplicate counts of a row set, an absent count
    counting as 0: the total the summary is specified to report. *)
Definition duplicateTotal (l : list LogRowModel) : Z :=
  foldr (fun r acc => default 0 (duplicates r) + acc) 0 l.

(** The reveal timer a new instance sets at time [t0] for props [p], and
    the completion timer set at time [t]. *)
Definition revealTimer (p : Props) (t0 : N) : Timer :=
  {| handle := 1; delay := N.of_nat (rowCount p); due := (t0 + N.of_nat (rowCount p))%N;
     callback := RevealLogs (rowCount p <=? PREVIEW_LIMIT * 2)%nat |}.

Definition completeTimer (t : N) : Timer :=
  {| handle := 2; delay := 2000; due := (t + 2000)%N; callback := RenderAllLogs |}.

Definition isReveal (t : Timer) : bool :=
  match callback t with
  | RevealLogs _ => true
  | RenderAllLogs => false
  end.

(** A value read from the enum that is the value of one of its members. *)
Definition isMemberValue (v : PropertyValue) : Prop :=
  match v with
  | MemberValue _ => True
  | _ => False
  end.

(** [s] with its [renderAll] flag replaced. *)
Definition withRenderAll (b : bool) (s : State) : State :=
  {| deferLogs := deferLogs s; renderAll := b;
     showLabels := showLabels s; showTime := showTime s |}.

(** The situations an instance mounted at [t0] with props [p0] can be
    in. [m] tells whether it is still mounted; once it is not, no timer
    is pending. [t1] is the time the reveal timer fired. *)
Inductive Phase (p0 : Props) (t0 : N) : Logs -> Prop :=
| phase_deferred p sl st t m :
    Phase p0 t0
      {| props := p;
         state := {| deferLogs := true; renderAll := false; showLabels := sl; showTime := st |};
         deferLogsTimer := Some 1%positive; renderAllTimer := None;
         mounted := m; now := t; nextHandle := 2;
         timers := if m then [revealTimer p0 t0] else [];
         timeouts := [revealTimer p0 t0] |}
| phase_partial p sl st t t1 m :
    (PREVIEW_LIMIT * 2 < rowCount p0)%nat ->
    (t0 + N.of_nat (rowCount p0) <= t1)%N -> (t1 <= t)%N ->
    Phase p0 t0
      {| props := p;
         state := {| deferLogs := false; renderAll := false; showLabels := sl; showTime := st |};
         deferLogsTimer := Some 1%positive; renderAllTimer := Some 2%positive;
         mounted := m; now := t; nextHandle := 3;
         timers := if m then [completeTimer t1] else [];
         timeouts := [revealTimer p0 t0; completeTimer t1] |}
| phase_full_direct p sl st t m :
    (rowCount p0 <= PREVIEW_LIMIT * 2)%nat ->
    (t0 + N.of_nat (rowCount p0) <= t)%N ->
    Phase p0 t0
      {| props := p;
         state := {| deferLogs := false; renderAll := true; showLabels := sl; showTime := st |};
         deferLogsTimer := Some 1%positive; renderAllTimer := None;
         mounted := m; now := t; nextHandle := 2;
         timers := [];
         timeouts := [revealTimer p0 t0] |}
| phase_full_staged p sl st t t1 m :
    (PREVIEW_LIMIT * 2 < rowCount p0)%nat ->
    (t0 + N.of_nat (rowCount p0) <= t1)%N -> (t1 + 2000 <= t)%N ->
    Phase p0 t0
      {| props := p;
         state := {| deferLogs := false; renderAll := true; showLabels := sl; showTime := st |};
         deferLogsTimer := Some 1%positive; renderAllTimer := Some 2%positive;
         mounted := m; now := t; nextHandle := 3;
         timers := [];
         timeouts := [revealTimer p0 t0; completeTimer t1] |}.

(** The element [render] makes for the row at index [i] of the
    deduplicated set. *)
Definition logRowElement (p : Props) (s : State) (i : nat) (r : LogRowModel) : LogRowElement :=
  {| key := i; row := r;
     rowHighlighterExpressions :=
       if decide (i < PREVIEW_LIMIT)%nat then Some (highlighterExpressions p) else None;
     rowShowDuplicates := showDuplicates p;
     rowShowLabels := showLabels s && hasLabel p;
     rowShowTime := showTime s |}.

(** The phases in the order they are passed through. *)
Definition stageRank (g : Stage) : nat :=
  match g with
  | Deferred => 0
  | PartialVisible => 1
  | FullyVisible => 2
  end.

(** [s] with one of its display flags replaced. *)
Definition withShowLabels (b : bool) (s : State) : State :=
  {| deferLogs := deferLogs s; renderAll := renderAll s;
     showLabels := b; showTime := showTime s |}.

Definition withShowTime (b : bool) (s : State) : State :=
  {| deferLogs := deferLogs s; renderAll := renderAll s;
     showLabels := showLabels s; showTime := b |}.

(** An instance that saw no event but time and its own timers: after
    the reveal timer fired at time [t] on a large set ([partialAt]),
    after the completion timer then fired at time [t'] ([fullAt]), and
    after the reveal timer fired at time [t] on a small set ([directAt]). *)
Definition partialAt (p : Props) (t0 t : N) : Logs :=
  {| props := p;
     state := {| deferLogs := false; renderAll := false; showLabels := false; showTime := true |};
     deferLogsTimer := Some 1%positive; renderAllTimer := Some 2%positive;
     mounted := true; now := t; nextHandle := 3;
     timers := [completeTimer t];
     timeouts := [revealTimer p t0; completeTimer t] |}.

Definition fullAt (p : Props) (t0 t t' : N) : Logs :=
  {| props := p;
     state := {| deferLogs := false; renderAll := true; showLabels := false; showTime := true |};
     deferLogsTimer := Some 1%positive; renderAllTimer := Some 2%positive;
     mounted := true; now := t'; nextHandle := 3;
     timers := [];
     timeouts := [revealTimer p t0; completeTimer t] |}.

Definition directAt (p : Props) (t0 t : N) : Logs :=
  {| props := p;
     state := {| deferLogs := false; renderAll := true; showLabels := false; showTime := true |};
     deferLogsTimer := Some 1%positive; renderAllTimer := None;
     mounted := true; now := t; nextHandle := 2;
     timers := [];
     timeouts := [revealTimer p t0] |}.

(** ** Sample inputs *)

Definition sampleRow (d : option Z) : LogRowModel :=
  {| entry := "level=info msg=ok"; duplicates := d |}.

Definition sampleModel (l : list LogRowModel) : LogsModel :=
  {| hasUniqueLabels := false; meta := None; rows := l |}.

Definition sampleProps (raw : list LogRowModel) (deduped : option (list LogRowModel))
    (strategy : LogsDedupStrategy) : Props :=
  {| data := Some (sampleModel raw);
     dedupedData := sampleModel <$> deduped;
     highlighterExpressions := [];
     loading := false; scanning := false; scanRange := None;
     dedupStrategy := strategy;
     onStartScanning := false; onStopScanning := false |}.

(** 201 equal lines, folded by the [exact] strategy into one row that
    carries 200 duplicates. *)
Definition foldedProps : Props :=
  sampleProps (replicate 201 (sampleRow None)) (Some [sampleRow (Some 200)])
              LogsDedupStrategy.exact.

(** 250 distinct-looking rows, none folded. *)
Definition largeProps : Props :=
  sampleProps (replicate 250 (sampleRow None)) (Some (replicate 250 (sampleRow None)))
              LogsDedupStrategy.none.

(** Three rows, delivered before the deduplicated set exists. *)
Definition smallProps : Props :=
  sampleProps (replicate 3 (sampleRow None)) None LogsDedupStrategy.none.

(** Seven rows, folded into four. *)
Definition laterProps : Props :=
  sampleProps (replicate 7 (sampleRow None))
              (Some [sampleRow (Some 0); sampleRow (Some 3); sampleRow None; sampleRow (Some 2)])
              LogsDedupStrategy.numbers.

(** A delivery with no row at all. *)
Definition emptyProps : Props :=
  sampleProps [] (Some []) LogsDedupStrategy.signature.

(** A table of level names for the examples: the members of the enum
    [LogLevel] of [@grafana/data], several names for one level. *)
Definition sampleLevels : gmap string LogLevel :=
  list_to_map
    [("emerg", "critical"); ("alert", "critical"); ("crit", "critical");
     ("critical", "critical"); ("warn", "warning"); ("warning", "warning");
     ("err", "error"); ("eror", "error"); ("error", "error");
     ("info", "info"); ("notice", "info"); ("dbug", "debug"); ("debug", "debug");
     ("trace", "trace"); ("unknown", "unknown")].

(** The names that [Object.prototype] defines in ECMAScript, its legacy
    accessors included. *)
Definition standardObjectPrototype : gset string :=
  list_to_set
    ["constructor"; "hasOwnProperty"; "isPrototypeOf"; "propertyIsEnumerable";
     "toLocaleString"; "toString"; "valueOf"; "__proto__";
     "__defineGetter__"; "__defineSetter__"; "__lookupGetter__"; "__lookupSetter__"].

(** ** Tactics for the case analyses on steps *)

(** One case distinction in the unfolding of a step. *)
Ltac step_case :=
  match goal with
  | H : Some _ = Some _ |- _ => injection H as <-
  | H : None = Some _ |- _ => discriminate H
  | H : context [decide ?P] |- _ => destruct (decide P); [try subst|]
  | H : context [(?n <=? ?m)%nat] |- _ => destruct (Nat.leb_spec n m)
  | |- context [(?n <=? ?m)%nat] => destruct (Nat.leb_spec n m)
  | |- context [decide ?P] => destruct (decide P); [try subst|]
  end; cbn -[Nat.leb Nat.mul PREVIEW_LIMIT N.add N.of_nat] in *.

(** Name the phase of a fully unfolded instance. *)
Ltac phase_intro :=
  first
    [ eapply (phase_deferred _ _ _ _ _ _ true)
    | eapply (phase_deferred _ _ _ _ _ _ false)
    | eapply (phase_partial _ _ _ _ _ _ _ true)
    | eapply (phase_partial _ _ _ _ _ _ _ false)
    | eapply (phase_full_direct _ _ _ _ _ _ true)
    | eapply (phase_full_direct _ _ _ _ _ _ false)
    | eapply (phase_full_staged _ _ _ _ _ _ _ true)
    | eapply (phase_full_staged _ _ _ _ _ _ _ false) ];
  change (PREVIEW_LIMIT * 2)%nat with 200%nat in *;
  cbn -[N.add N.of_nat]; lia.

(** * Properties *)

(** ** Duplicate aggregation *)

Section Aggregation.

Implicit Types (p : Props) (l : list LogRowModel).

Lemma addDuplicates_default sum r :
  addDuplicates sum r = sum + default 0 (duplicates r).
Proof.
  unfold addDuplicates, truthy. destruct (duplicates r) as [d|]; simpl; [|lia].
  destruct (Z.eqb_spec d 0); simpl; lia.
Qed.

Lemma fold_addDuplicates l : forall sum,
  fold_left addDuplicates l sum = sum + duplicateTotal l.
Proof.
  induction l as [|r l IH]; intros sum; simpl.
  - lia.
  - rewrite IH, addDuplicates_default. lia.
Qed.

Lemma dedupCount_processedRows p : dedupCount p = duplicateTotal (processedRows p).
Proof.
  unfold dedupCount, processedRows. destruct (dedupedData p); [|done].
  rewrite fold_addDuplicates. lia.
Qed.

Lemma showDuplicates_iff p :
  showDuplicates p = true <-> dedupStrategy p ≠ LogsDedupStrategy.none /\ 0 < dedupCount p.
Proof.
  unfold showDuplicates.
  rewrite andb_true_iff, bool_decide_eq_true, Z.ltb_lt. tauto.
Qed.

End Aggregation.

(** C1. For every deduplicated row set, the [dedupCount] that [render]
    computes is the sum of the rows' duplicate counts, an absent count
    contributing 0; [showDuplicates] is true exactly when the strategy is
    not [none] and [dedupCount] is positive; for an empty row set
    [dedupCount] is 0 and [showDuplicates] is false. *)
Theorem dedup_summary (p : Props) (dd : LogsModel) :
  dedupedData p = Some dd ->
  dedupCount p = duplicateTotal (rows dd) /\
  (showDuplicates p = true <->
     dedupStrategy p ≠ LogsDedupStrategy.none /\ 0 < dedupCount p) /\
  (rows dd = [] -> dedupCount p = 0 /\ showDuplicates p = false).
Proof.
  intros Hdd.
  assert (Hsum : dedupCount p = duplicateTotal (rows dd)).
  { rewrite dedupCount_processedRows. unfold processedRows. by rewrite Hdd. }
  split; [exact Hsum|]. split; [apply showDuplicates_iff|].
  intros Hnil. rewrite Hnil in Hsum. simpl in Hsum. split; [exact Hsum|].
  unfold showDuplicates. rewrite Hsum. apply andb_false_r.
Qed.

(** The duplicate counts 0, 3, absent, 2 under the [numbers] strategy. *)
Lemma dedup_summary_witness :
  dedupCount laterProps = 5 /\ showDuplicates laterProps = true.
Proof.
  destruct (dedup_summary laterProps _ eq_refl) as (Hsum & Hshow & _).
  split; [rewrite Hsum; reflexivity|].
  apply Hshow. split; [discriminate|]. rewrite Hsum. reflexivity.
Defined.

(** ** The rows area of [render] *)

Section Rendering.

Implicit Types (p : Props) (s : State).

Lemma row_firstBatch p s : row <$> firstBatch p s = firstRows p.
Proof.
  unfold firstBatch. rewrite fmap_imap.
  rewrite (imap_ext _ (const id)) by done.
  rewrite imap_const. apply list_fmap_id.
Qed.

Lemma row_lastBatch p s : row <$> lastBatch p s = lastRows p.
Proof.
  unfold lastBatch. rewrite fmap_imap.
  rewrite (imap_ext _ (const id)) by done.
  rewrite imap_const. apply list_fmap_id.
Qed.

Lemma render_None_iff p s : render p s = None <-> data p = None.
Proof. unfold render. destruct (data p); split; congruence. Qed.

(** The rows on screen, by the flags. *)
Lemma visibleRows_spec p s :
  visibleRows p s =
    if hasData p && negb (deferLogs s)
    then (if renderAll s then processedRows p else firstRows p)
    else [].
Proof.
  unfold visibleRows, render, hasData.
  destruct (data p) as [d|]; [|done]. simpl.
  rewrite fmap_app.
  destruct (0 <? length (rows d))%nat, (deferLogs s), (renderAll s); simpl;
    rewrite ?row_firstBatch, ?row_lastBatch, ?app_nil_r; try done.
  unfold firstRows, lastRows. apply take_drop.
Qed.

Lemma visibleRows_deferred p s : deferLogs s = true -> visibleRows p s = [].
Proof. intros H. rewrite visibleRows_spec, H. by rewrite andb_false_r. Qed.

Lemma visibleRows_prefix p s : visibleRows p s `prefix_of` processedRows p.
Proof.
  rewrite visibleRows_spec.
  destruct (hasData p && negb (deferLogs s)); [|apply prefix_nil].
  destruct (renderAll s); [done|]. apply prefix_take.
Qed.

(** The meta block is shown exactly when the raw set has a row. *)
Lemma metaBlock_hasData p s panel :
  render p s = Some panel -> (is_Some (metaBlock panel) <-> hasData p = true).
Proof.
  unfold render, hasData. destruct (data p) as [d|]; [|done]. intros [= <-]. simpl.
  destruct (0 <? length (rows d))%nat; split; done.
Qed.

Lemma hasData_rowCount p : hasData p = true <-> (0 < rowCount p)%nat.
Proof.
  unfold hasData, rowCount. destruct (data p); simpl.
  - apply Nat.ltb_lt.
  - split; [done|lia].
Qed.

End Rendering.

(** ** The lifecycle *)

Section Lifecycle.

Implicit Types (p : Props) (w : Logs) (e : Event) (evs : list Event).

Lemma mount_eq p t0 :
  mount p t0 =
    {| props := p; state := initialState;
       deferLogsTimer := Some 1%positive; renderAllTimer := None;
       mounted := true; now := t0; nextHandle := 2;
       timers := [revealTimer p t0]; timeouts := [revealTimer p t0] |}.
Proof. reflexivity. Qed.

Lemma run_app w evs1 evs2 :
  run w (evs1 ++ evs2) = run w evs1 ≫= fun w1 => run w1 evs2.
Proof.
  revert w. induction evs1 as [|e evs1 IH]; intros w; simpl; [done|].
  destruct (step w e); simpl; [apply IH|done].
Qed.

(** An invariant of the steps that a trace is made of holds after the trace. *)
Lemma run_invariant (I : Logs -> Prop) (ok : Event -> Prop) :
  (forall w e w', I w -> ok e -> step w e = Some w' -> I w') ->
  forall evs w w', Forall ok evs -> I w -> run w evs = Some w' -> I w'.
Proof.
  intros Hstep evs. induction evs as [|e evs IH]; intros w w' Hok HI Hrun; simpl in Hrun.
  - by injection Hrun as <-.
  - destruct (step w e) as [w1|] eqn:He; [|done].
    inversion Hok; subst. eauto.
Qed.

Lemma Phase_mount p t0 : Phase p t0 (mount p t0).
Proof. rewrite mount_eq. apply (phase_deferred p t0 p false true t0 true). Qed.

End Lifecycle.

Section Phases.

Variables (p0 : Props) (t0 : N).

Implicit Types (w : Logs) (e : Event) (evs : list Event).

(** Every event keeps the instance within the four phases. *)
Lemma step_Phase w e w' : Phase p0 t0 w -> step w e = Some w' -> Phase p0 t0 w'.
Proof.
  intros HP Hstep.
  destruct HP as [p sl st t m|p sl st t t1 m|p sl st t m|p sl st t t1 m];
    destruct e as [p'|dt|h|c|c|]; destruct m, sl, st; try destruct c;
    cbn -[Nat.leb Nat.mul PREVIEW_LIMIT N.add N.of_nat] in Hstep;
    repeat step_case; try done; phase_intro.
Qed.

Lemma run_Phase evs w : run (mount p0 t0) evs = Some w -> Phase p0 t0 w.
Proof.
  apply (run_invariant (Phase p0 t0) (fun _ => True)).
  - intros ? ? ? ? _. by apply step_Phase.
  - by apply Forall_true.
  - apply Phase_mount.
Qed.

(** What a timer callback does to the phase: the reveal callback leaves
    [Deferred] for [FullyVisible] or [PartialVisible], by the count at
    mount; the completion callback leaves [PartialVisible]. *)
Lemma step_Fire w h w' :
  Phase p0 t0 w -> step w (Fire h) = Some w' ->
  (stage (state w) = Deferred /\
   stage (state w') =
     (if (rowCount p0 <=? PREVIEW_LIMIT * 2)%nat then FullyVisible else PartialVisible)) \/
  (stage (state w) = PartialVisible /\ stage (state w') = FullyVisible).
Proof.
  intros HP Hstep.
  destruct HP as [p sl st t m|p sl st t t1 m|p sl st t m|p sl st t t1 m];
    destruct m, sl, st;
    cbn -[Nat.leb Nat.mul PREVIEW_LIMIT N.add N.of_nat] in Hstep;
    repeat step_case; try done;
    change (PREVIEW_LIMIT * 2)%nat with 200%nat in *;
    solve [ exfalso; lia | left; done | right; done ].
Qed.

(** The [setTimeout] calls with a reveal callback: the one of the mount. *)
Lemma Phase_reveal_once w :
  Phase p0 t0 w -> filter (fun t => isReveal t = true) (timeouts w) = [revealTimer p0 t0].
Proof. by destruct 1. Qed.

Lemma Phase_deferred_timers w :
  Phase p0 t0 w -> mounted w = true -> deferLogs (state w) = true ->
  timers w = [revealTimer p0 t0].
Proof. destruct 1; simpl; intros -> ?; done. Qed.

Lemma Phase_unmounted w : Phase p0 t0 w -> mounted w = false -> timers w = [].
Proof. destruct 1; simpl; intros ->; done. Qed.

(** At most [2 * PREVIEW_LIMIT] rows at mount: no completion timer, ever. *)
Lemma Phase_direct w :
  (rowCount p0 <= PREVIEW_LIMIT * 2)%nat -> Phase p0 t0 w ->
  stage (state w) ≠ PartialVisible /\ renderAllTimer w = None /\
  timeouts w = [revealTimer p0 t0].
Proof. intros Hle. destruct 1; simpl; try done; lia. Qed.

End Phases.

(** ** Traces without a timer callback, and after unmounting *)

Section Quiet.

Variables (p0 : Props) (t0 : N).

Implicit Types (w : Logs) (e : Event) (evs : list Event).

(** Only a timer callback changes the phase. *)
Lemma step_quiet w e w' :
  Phase p0 t0 w -> isFire e = false -> step w e = Some w' ->
  stage (state w') = stage (state w).
Proof.
  intros HP Hq Hstep.
  destruct HP as [p sl st t m|p sl st t t1 m|p sl st t m|p sl st t t1 m];
    destruct e as [p'|dt|h|c|c|]; try discriminate Hq;
    destruct m, sl, st; try destruct c;
    cbn -[Nat.leb Nat.mul PREVIEW_LIMIT N.add N.of_nat] in Hstep;
    repeat step_case; done.
Qed.

Lemma run_quiet evs w :
  Forall (fun e => isFire e = false) evs ->
  run (mount p0 t0) evs = Some w ->
  Phase p0 t0 w /\ stage (state w) = Deferred.
Proof.
  intros Hq.
  apply (run_invariant (fun w => Phase p0 t0 w /\ stage (state w) = Deferred)
                       (fun e => isFire e = false)); [|done|].
  - intros w1 e w2 [HP Hs] He Hstep. split; [by eapply step_Phase|].
    rewrite <- Hs. by eapply step_quiet.
  - split; [apply Phase_mount|done].
Qed.

(** [componentWillUnmount] leaves the state alone. *)
Lemma state_componentWillUnmount w : state (componentWillUnmount w) = state w.
Proof.
  unfold componentWillUnmount.
  destruct (deferLogsTimer w), (renderAllTimer w) eqn:E; simpl; rewrite ?E; done.
Qed.

(** Once unmounted and without a pending timer, only time passes. *)
Lemma step_unmounted w e w' :
  mounted w = false -> timers w = [] -> step w e = Some w' ->
  mounted w' = false /\ timers w' = [] /\ state w' = state w.
Proof.
  intros Hm Ht. unfold step, findTimer. rewrite Hm, Ht.
  destruct e; simpl; try done. by intros [= <-].
Qed.

Lemma run_unmounted evs w w' :
  mounted w = false -> timers w = [] -> run w evs = Some w' ->
  mounted w' = false /\ timers w' = [] /\ state w' = state w.
Proof.
  intros Hm Ht.
  apply (run_invariant
           (fun w1 => mounted w1 = false /\ timers w1 = [] /\ state w1 = state w)
           (fun _ => True)); [|by apply Forall_true|done].
  intros w1 e w2 (Hm1 & Ht1 & Hs1) _ Hstep.
  destruct (step_unmounted _ _ _ Hm1 Ht1 Hstep) as (? & ? & ?).
  repeat split; congruence.
Qed.

(** Unmounting, in whatever phase, leaves no timer pending. *)
Lemma step_Unmount w w' :
  Phase p0 t0 w -> step w Unmount = Some w' ->
  mounted w' = false /\ timers w' = [] /\ state w' = state w.
Proof.
  intros HP Hstep. pose proof (step_Phase _ _ _ _ _ HP Hstep) as HP'.
  simpl in Hstep. destruct (mounted w); [|done]. injection Hstep as <-.
  split; [done|]. split; [by apply (Phase_unmounted p0 t0)|].
  apply state_componentWillUnmount.
Qed.

Lemma step_Fire_none w h : timers w = [] -> step w (Fire h) = None.
Proof. intros Ht. unfold step, findTimer. by rewrite Ht. Qed.

Lemma stage_Deferred (s : State) : stage s = Deferred <-> deferLogs s = true.
Proof. unfold stage. destruct (deferLogs s), (renderAll s); split; done. Qed.

End Quiet.

(** ** The two timers, run in order *)

Section Staged.

Variables (p : Props) (t0 : N).

Lemma run_reveal_early dt :
  (dt < N.of_nat (rowCount p))%N ->
  run (mount p t0) [Elapse dt; Fire 1] = None.
Proof.
  intros Hdt. rewrite mount_eq.
  cbn -[Nat.leb Nat.mul PREVIEW_LIMIT N.add N.of_nat].
  repeat (step_case; try done; try lia).
Qed.

Lemma run_reveal_staged dt :
  (PREVIEW_LIMIT * 2 < rowCount p)%nat -> (N.of_nat (rowCount p) <= dt)%N ->
  run (mount p t0) [Elapse dt; Fire 1] = Some (partialAt p t0 (t0 + dt)).
Proof.
  intros Hn Hdt. rewrite mount_eq.
  cbn -[Nat.leb Nat.mul PREVIEW_LIMIT N.add N.of_nat].
  repeat (step_case; try done; try lia).
Qed.

Lemma run_reveal_direct dt :
  (rowCount p <= PREVIEW_LIMIT * 2)%nat -> (N.of_nat (rowCount p) <= dt)%N ->
  run (mount p t0) [Elapse dt; Fire 1] = Some (directAt p t0 (t0 + dt)).
Proof.
  intros Hn Hdt. rewrite mount_eq.
  cbn -[Nat.leb Nat.mul PREVIEW_LIMIT N.add N.of_nat].
  repeat (step_case; try done; try lia).
Qed.

Lemma run_complete t dt :
  (2000 <= dt)%N ->
  run (partialAt p t0 t) [Elapse dt; Fire 2] = Some (fullAt p t0 t (t + dt)).
Proof.
  intros Hdt. cbn -[N.add N.of_nat].
  repeat (step_case; try done; try lia).
Qed.

Lemma run_complete_early t dt :
  (dt < 2000)%N ->
  run (partialAt p t0 t) [Elapse dt; Fire 2] = None.
Proof.
  intros Hdt. cbn -[N.add N.of_nat].
  repeat (step_case; try done; try lia).
Qed.

End Staged.

(** ** Staged rendering *)

(** C2, as stated, fails: the count at mount is the count of the raw
    rows, the window is cut from the deduplicated rows. With 201 raw
    rows folded into one, the reveal timer leaves the panel in
    [PartialVisible] with one row on screen, not [PREVIEW_LIMIT]. *)
Lemma staged_reveal_counterexample :
  (PREVIEW_LIMIT * 2 < rowCount foldedProps)%nat /\
  exists w1,
    run (mount foldedProps 0) [Elapse (N.of_nat (rowCount foldedProps)); Fire 1] = Some w1 /\
    stage (state w1) = PartialVisible /\
    length (visibleWindow w1) = 1%nat /\
    length (visibleWindow w1) ≠ PREVIEW_LIMIT.
Proof.
  split; [apply Nat.ltb_lt; reflexivity|].
  eexists. split; [vm_compute; reflexivity|].
  split; [reflexivity|]. split; [reflexivity|]. vm_compute. discriminate.
Qed.

(** C2, amended. With more than [2 * PREVIEW_LIMIT] raw rows at mount:
    the reveal timer cannot fire before as many milliseconds as there
    were raw rows; when it fires the panel is [PartialVisible] and shows
    the first [PREVIEW_LIMIT] rows of the deduplicated set, which are
    exactly [PREVIEW_LIMIT] rows when that set has as many; the
    completion timer is then pending, cannot fire before 2000 more
    milliseconds, and when it fires the panel is [FullyVisible] and shows
    the whole deduplicated set in its order. *)
Theorem staged_reveal (p : Props) (t0 dt1 dt2 : N) :
  (PREVIEW_LIMIT * 2 < rowCount p)%nat ->
  (N.of_nat (rowCount p) <= dt1)%N ->
  (2000 <= dt2)%N ->
  exists w1 w2,
    (forall dt, (dt < N.of_nat (rowCount p))%N ->
                run (mount p t0) [Elapse dt; Fire 1] = None) /\
    run (mount p t0) [Elapse dt1; Fire 1] = Some w1 /\
    stage (state w1) = PartialVisible /\
    visibleWindow w1 = take PREVIEW_LIMIT (processedRows p) /\
    (PREVIEW_LIMIT <= length (processedRows p) ->
     length (visibleWindow w1) = PREVIEW_LIMIT)%nat /\
    timers w1 = [completeTimer (now w1)] /\
    (forall dt, (dt < 2000)%N -> run w1 [Elapse dt; Fire 2] = None) /\
    run w1 [Elapse dt2; Fire 2] = Some w2 /\
    stage (state w2) = FullyVisible /\
    visibleWindow w2 = processedRows p.
Proof.
  intros Hn Hdt1 Hdt2.
  assert (Hdata : hasData p = true) by (apply hasData_rowCount; lia).
  assert (Hwin : visibleWindow (partialAt p t0 (t0 + dt1)) = take PREVIEW_LIMIT (processedRows p)).
  { unfold visibleWindow. rewrite visibleRows_spec. simpl. by rewrite Hdata. }
  exists (partialAt p t0 (t0 + dt1)), (fullAt p t0 (t0 + dt1) (t0 + dt1 + dt2)).
  split; [apply run_reveal_early|].
  split; [by apply run_reveal_staged|].
  split; [done|]. split; [exact Hwin|].
  split; [intros Hlen; rewrite Hwin; by apply length_take_le|].
  split; [done|].
  split; [apply run_complete_early|].
  split; [by apply run_complete|].
  split; [done|].
  unfold visibleWindow. rewrite visibleRows_spec. simpl. by rewrite Hdata.
Qed.

(** 250 rows, none folded: 100 rows after 250 ms, 250 rows 2000 ms later. *)
Lemma staged_reveal_witness :
  exists w1 w2,
    run (mount largeProps 0) [Elapse 250; Fire 1] = Some w1 /\
    length (visibleWindow w1) = 100%nat /\
    run w1 [Elapse 2000; Fire 2] = Some w2 /\
    length (visibleWindow w2) = 250%nat.
Proof.
  assert (H1 : (PREVIEW_LIMIT * 2 < rowCount largeProps)%nat)
    by (apply Nat.ltb_lt; reflexivity).
  assert (H2 : (N.of_nat (rowCount largeProps) <= 250)%N)
    by (apply N.leb_le; reflexivity).
  assert (H3 : (2000 <= 2000)%N) by lia.
  destruct (staged_reveal largeProps 0 250 2000 H1 H2 H3)
    as (w1 & w2 & _ & Hrun1 & _ & _ & Hlen & _ & _ & Hrun2 & _ & Hall).
  exists w1, w2. split; [exact Hrun1|]. split.
  - apply Hlen. apply Nat.leb_le. reflexivity.
  - split; [exact Hrun2|]. rewrite Hall. reflexivity.
Defined.

(** C3. With at most [2 * PREVIEW_LIMIT] rows at mount, whatever
    happens to the instance: it is never [PartialVisible], the
    completion timer is never set (the only [setTimeout] call is the
    reveal timer), a timer callback can only run in [Deferred] and
    leaves the panel [FullyVisible]; and the reveal timer does fire once
    its delay has passed. *)
Theorem small_set_direct (p0 : Props) (t0 : N) (evs : list Event) (w : Logs) :
  (rowCount p0 <= PREVIEW_LIMIT * 2)%nat ->
  run (mount p0 t0) evs = Some w ->
  stage (state w) ≠ PartialVisible /\
  renderAllTimer w = None /\
  timeouts w = [revealTimer p0 t0] /\
  (forall h w', step w (Fire h) = Some w' ->
                stage (state w) = Deferred /\ stage (state w') = FullyVisible) /\
  (exists w1, run (mount p0 t0) [Elapse (N.of_nat (rowCount p0)); Fire 1] = Some w1 /\
              stage (state w1) = FullyVisible).
Proof.
  intros Hle Hrun. pose proof (run_Phase _ _ _ _ Hrun) as HP.
  destruct (Phase_direct _ _ _ Hle HP) as (Hst & Htimer & Hlog).
  repeat split; try done.
  - destruct (step_Fire _ _ _ _ _ HP H) as [[Hd _]|[Hp _]]; done.
  - destruct (step_Fire _ _ _ _ _ HP H) as [[_ Hf]|[Hp _]]; [|done].
    rewrite Hf. destruct (Nat.leb_spec (rowCount p0) (PREVIEW_LIMIT * 2)); [done|lia].
  - eexists. split; [apply run_reveal_direct; [done|lia]|done].
Qed.

(** Three rows at mount; seven rows are delivered after the reveal. *)
Lemma small_set_direct_witness :
  exists w,
    run (mount smallProps 0) [Elapse 3; Fire 1; Deliver laterProps; Elapse 5000] = Some w /\
    stage (state w) = FullyVisible /\ timers w = [] /\
    timeouts w = [revealTimer smallProps 0].
Proof.
  eexists. split; [vm_compute; reflexivity|].
  split; [reflexivity|]. split; [reflexivity|].
  eapply (proj1 (proj2 (proj2
    (small_set_direct smallProps 0 [Elapse 3; Fire 1; Deliver laterProps; Elapse 5000] _ _ _)))).
  Unshelve.
  - apply Nat.leb_le. reflexivity.
  - vm_compute; reflexivity.
Defined.

(** C5. An instance unmounted before any timer callback ran: after
    [componentWillUnmount] no timer is pending; whatever happens
    afterwards, the state is the one it had, still [Deferred], and no
    timer callback can run. *)
Theorem unmount_before_timers (p0 : Props) (t0 : N) (pre post : list Event)
    (w w' w'' : Logs) (h : positive) :
  Forall (fun e => isFire e = false) pre ->
  run (mount p0 t0) pre = Some w ->
  step w Unmount = Some w' ->
  run w' post = Some w'' ->
  timers w' = [] /\
  state w'' = state w /\ stage (state w'') = Deferred /\
  step w'' (Fire h) = None.
Proof.
  intros Hq Hpre Hun Hpost.
  destruct (run_quiet _ _ _ _ Hq Hpre) as [HP Hs].
  destruct (step_Unmount _ _ _ _ HP Hun) as (Hm & Ht & Hst).
  destruct (run_unmounted _ _ _ Hm Ht Hpost) as (Hm' & Ht' & Hst').
  split; [done|]. split; [congruence|]. split; [congruence|].
  by apply step_Fire_none.
Qed.

(** Unmounted 2 ms after the mount, then 5000 ms pass. *)
Lemma unmount_before_timers_witness :
  exists w w' w'',
    run (mount smallProps 0) [Elapse 2; Deliver laterProps; ChangeLabels true] = Some w /\
    step w Unmount = Some w' /\
    run w' [Elapse 5000] = Some w'' /\
    timers w' = [] /\ state w'' = state w /\ stage (state w'') = Deferred /\
    step w'' (Fire 1) = None.
Proof.
  eexists _, _, _.
  split; [vm_compute; reflexivity|].
  split; [vm_compute; reflexivity|].
  split; [vm_compute; reflexivity|].
  eapply (unmount_before_timers smallProps 0
            [Elapse 2; Deliver laterProps; ChangeLabels true] [Elapse 5000]).
  - repeat constructor.
  - vm_compute; reflexivity.
  - vm_compute; reflexivity.
  - vm_compute; reflexivity.
Defined.

(** C9. The mount makes one [setTimeout] call, for the reveal timer,
    with the raw row count of that moment as its delay. Whatever happens
    to the instance afterwards, new deliveries included, this is the only
    [setTimeout] call with a reveal callback, and while the instance is
    mounted and [Deferred] the pending timer is that very timer, delay
    and due time unchanged. *)
Theorem reveal_timer_once (p0 : Props) (t0 : N) (evs : list Event) (w : Logs) :
  run (mount p0 t0) evs = Some w ->
  exists t,
    timeouts (mount p0 t0) = [t] /\ timers (mount p0 t0) = [t] /\
    isReveal t = true /\
    delay t = N.of_nat (rowCount p0) /\ due t = (t0 + N.of_nat (rowCount p0))%N /\
    filter (fun t' => isReveal t' = true) (timeouts w) = [t] /\
    (mounted w = true -> stage (state w) = Deferred -> timers w = [t]).
Proof.
  intros Hrun. pose proof (run_Phase _ _ _ _ Hrun) as HP.
  exists (revealTimer p0 t0). rewrite mount_eq.
  repeat split; try done.
  - by apply Phase_reveal_once.
  - intros Hm Hs. apply stage_Deferred in Hs. by apply Phase_deferred_timers.
Qed.

(** Three rows at mount, seven rows delivered 1 ms later: the pending
    timer is still the one with delay 3. *)
Lemma reveal_timer_once_witness :
  exists w,
    run (mount smallProps 0) [Elapse 1; Deliver laterProps; Elapse 1] = Some w /\
    rowCount (props w) = 7%nat /\
    delay <$> timers w = [3%N] /\
    delay <$> filter (fun t' => isReveal t' = true) (timeouts w) = [3%N].
Proof.
  eexists. split; [vm_compute; reflexivity|]. split; [reflexivity|].
  match goal with
  | |- context [timers ?w] =>
      assert (Hrun : run (mount smallProps 0) [Elapse 1; Deliver laterProps; Elapse 1] = Some w)
        by (vm_compute; reflexivity)
  end.
  destruct (reveal_timer_once smallProps 0 _ _ Hrun)
    as (t & Hlog & _ & _ & Hdelay & _ & Honce & Hpending).
  rewrite Honce, Hpending by reflexivity. simpl. rewrite Hdelay. split; reflexivity.
Defined.

(** ** While deferred *)

Section Deferral.

Implicit Types (p : Props) (s : State).

(** With [deferLogs] set, [render] produces no row element; it produces
    the text "Rendering n rows..." exactly when the raw set has a row,
    and [n] is the length of the deduplicated set. *)
Lemma render_deferred p s :
  deferLogs s = true ->
  visibleRows p s = [] /\
  match render p s with
  | Some panel =>
      logRows panel = [] /\
      renderingRows panel =
        (if hasData p then Some (length (processedRows p)) else None)
  | None => data p = None
  end.
Proof.
  intros Hd. split; [by apply visibleRows_deferred|].
  unfold render, hasData. destruct (data p) as [d|]; [|done]. simpl.
  rewrite Hd. by destruct (0 <? length (rows d))%nat.
Qed.

End Deferral.

(** C4, as stated, fails for the placeholder: with an empty raw set the
    freshly mounted, deferred panel shows no "Rendering ... rows" text. *)
Lemma deferred_placeholder_counterexample :
  let w := mount emptyProps 0 in
  deferLogs (state w) = true /\
  exists panel,
    render (props w) (state w) = Some panel /\
    logRows panel = [] /\ renderingRows panel = None.
Proof. split; [reflexivity|]. eexists. split; [reflexivity|]. split; reflexivity. Qed.

(** C4, amended. In every reachable state with [deferLogs] set, and
    whatever [renderAll] is put to, no row is on screen, through all
    deliveries; when the raw set of the current props has a row, the
    text "Rendering n rows..." is shown with [n] the number of
    deduplicated rows; when the raw set is empty no such text is shown,
    and when [data] is absent nothing is rendered. *)
Theorem deferred_window_empty (p0 : Props) (t0 : N) (evs : list Event) (w : Logs)
    (ra : bool) :
  run (mount p0 t0) evs = Some w ->
  deferLogs (state w) = true ->
  visibleWindow w = [] /\
  visibleRows (props w) (withRenderAll ra (state w)) = [] /\
  match render (props w) (withRenderAll ra (state w)) with
  | Some panel =>
      logRows panel = [] /\
      renderingRows panel =
        (if hasData (props w) then Some (length (processedRows (props w))) else None)
  | None => data (props w) = None
  end.
Proof.
  intros _ Hd. split; [by apply visibleRows_deferred|].
  by apply render_deferred.
Qed.

(** Three rows at mount, seven rows folded into four delivered while
    deferred: no row on screen, "Rendering 4 rows...". *)
Lemma deferred_window_empty_witness :
  exists w panel,
    run (mount smallProps 0) [Elapse 1; Deliver laterProps] = Some w /\
    visibleWindow w = [] /\
    render (props w) (withRenderAll true (state w)) = Some panel /\
    logRows panel = [] /\ renderingRows panel = Some 4%nat.
Proof.
  eexists _, _. split; [vm_compute; reflexivity|].
  match goal with
  | |- visibleWindow ?w = _ /\ _ =>
      pose proof (deferred_window_empty smallProps 0 [Elapse 1; Deliver laterProps] w true
                    eq_refl eq_refl) as (Hwin & _ & Hpanel)
  end.
  split; [exact Hwin|]. split; [reflexivity|]. exact Hpanel.
Defined.

(** ** Callbacks *)

(** C6. [onChangeDedup] calls [onDedupStrategyChange] exactly once: with
    [none] when the candidate is the active strategy, with the candidate
    otherwise. *)
Theorem onChangeDedup_notifies (p : Props) (dedup : LogsDedupStrategy) :
  (dedup = dedupStrategy p ->
   onChangeDedup p dedup = [DedupStrategyChange LogsDedupStrategy.none]) /\
  (dedup ≠ dedupStrategy p ->
   onChangeDedup p dedup = [DedupStrategyChange dedup]) /\
  length (onChangeDedup p dedup) = 1%nat.
Proof.
  unfold onChangeDedup. destruct (decide (dedupStrategy p = dedup)) as [<-|Hne].
  - repeat split; done.
  - repeat split; [congruence|done..].
Qed.

Lemma onChangeDedup_notifies_witness :
  onChangeDedup laterProps LogsDedupStrategy.numbers
    = [DedupStrategyChange LogsDedupStrategy.none] /\
  onChangeDedup laterProps LogsDedupStrategy.signature
    = [DedupStrategyChange LogsDedupStrategy.signature].
Proof.
  split.
  - apply (proj1 (onChangeDedup_notifies laterProps LogsDedupStrategy.numbers)).
    reflexivity.
  - apply (proj1 (proj2 (onChangeDedup_notifies laterProps LogsDedupStrategy.signature))).
    discriminate.
Defined.

(** C7, as stated, fails: a name that is no member of the enum does not
    stop [onToggleLogLevel]. The owner is called, with [undefined] in the
    place of a name found nowhere and with the inherited function in the
    place of a name that [Object.prototype] defines. *)
Lemma onToggleLogLevel_counterexample :
  sampleLevels !! "verbose" = None /\
  sampleLevels !! "constructor" = None /\
  onToggleLogLevel sampleLevels standardObjectPrototype ["info"; "verbose"; "constructor"]
    = [ToggleLogLevel [MemberValue "info"; UndefinedValue; InheritedValue "constructor"]].
Proof. repeat split; vm_compute; reflexivity. Qed.

(** C7, amended. Whatever the enum's members, whatever [Object.prototype]
    defines and whatever the names, [onToggleLogLevel] calls the owner
    exactly once, with an array as long as the input that holds, place by
    place: the member's value when the name is a member of the enum; for
    a name that is no member, what [Object.prototype] holds under it when
    it defines the name, and [undefined] when it does not. *)
Theorem onToggleLogLevel_forwards (LogLevelEnum : gmap string LogLevel)
    (ObjectPrototype : gset string) (hiddenRawLevels : list string) :
  exists hiddenLogLevels,
    onToggleLogLevel LogLevelEnum ObjectPrototype hiddenRawLevels
      = [ToggleLogLevel hiddenLogLevels] /\
    length hiddenLogLevels = length hiddenRawLevels /\
    forall i level,
      hiddenRawLevels !! i = Some level ->
      (forall v, LogLevelEnum !! level = Some v ->
                 hiddenLogLevels !! i = Some (MemberValue v)) /\
      (LogLevelEnum !! level = None -> level ∈ ObjectPrototype ->
       hiddenLogLevels !! i = Some (InheritedValue level)) /\
      (LogLevelEnum !! level = None -> level ∉ ObjectPrototype ->
       hiddenLogLevels !! i = Some UndefinedValue).
Proof.
  eexists. split; [reflexivity|]. split; [apply length_fmap|].
  intros i level Hi. rewrite list_lookup_fmap, Hi. simpl. unfold readLogLevel.
  split; [|split].
  - by intros v ->.
  - intros -> Hin. by rewrite decide_True.
  - intros -> Hin. by rewrite decide_False.
Qed.

Lemma onToggleLogLevel_forwards_witness :
  exists hiddenLogLevels,
    onToggleLogLevel sampleLevels standardObjectPrototype ["warn"; "toString"; "verbose"]
      = [ToggleLogLevel hiddenLogLevels] /\
    hiddenLogLevels !! 0%nat = Some (MemberValue "warning") /\
    hiddenLogLevels !! 1%nat = Some (InheritedValue "toString") /\
    hiddenLogLevels !! 2%nat = Some UndefinedValue.
Proof.
  destruct (onToggleLogLevel_forwards sampleLevels standardObjectPrototype
              ["warn"; "toString"; "verbose"]) as (l & Hcall & _ & Hl).
  exists l. split; [exact Hcall|]. split; [|split].
  - apply (proj1 (Hl 0%nat "warn" eq_refl)). vm_compute. reflexivity.
  - apply (proj1 (proj2 (Hl 1%nat "toString" eq_refl))).
    + vm_compute. reflexivity.
    + apply (bool_decide_unpack _). vm_compute. exact I.
  - apply (proj2 (proj2 (Hl 2%nat "verbose" eq_refl))).
    + vm_compute. reflexivity.
    + apply (bool_decide_unpack _). vm_compute. exact I.
Defined.

(** ** The meta list *)

(** C8. The list [meta] that [render] builds is the raw meta list with
    the item "Dedup count", of kind [Number] and with [dedupCount] as its
    value, pushed at its end whenever the strategy is not [none], whatever
    the count (0 for an empty deduplicated set); with the strategy [none]
    it is the raw meta list and nothing else. *)
Theorem dedup_meta_item (p : Props) (d : LogsModel) :
  let raw := default [] (meta d) in
  (dedupStrategy p ≠ LogsDedupStrategy.none ->
   metaItems p d =
     raw ++ [{| label := "Dedup count"; value := VNumber (dedupCount p);
                kind := LogsMetaKind.Number |}] /\
   (processedRows p = [] -> value <$> last (metaItems p d) = Some (VNumber 0))) /\
  (dedupStrategy p = LogsDedupStrategy.none -> metaItems p d = raw).
Proof.
  intros raw. unfold metaItems. fold raw. split.
  - intros Hne. rewrite bool_decide_eq_true_2 by done. split; [done|].
    intros Hnil. rewrite last_snoc. simpl.
    by rewrite dedupCount_processedRows, Hnil.
  - intros He. rewrite bool_decide_eq_false_2; [done|]. by intros [].
Qed.

(** No row at all under the [signature] strategy: the item is there, with 0. *)
Lemma dedup_meta_item_witness :
  metaItems emptyProps (sampleModel []) =
    [{| label := "Dedup count"; value := VNumber 0; kind := LogsMetaKind.Number |}] /\
  metaItems smallProps (sampleModel []) = [].
Proof.
  split.
  - destruct (proj1 (dedup_meta_item emptyProps (sampleModel []))) as [H _].
    + discriminate.
    + rewrite H. reflexivity.
  - apply (proj2 (dedup_meta_item smallProps (sampleModel []))). reflexivity.
Defined.

(** ** Raw rows and deduplicated rows *)

(** C10. The delay of the reveal timer is the number of rows of [data];
    the rows on screen are a prefix of the rows of [dedupedData], the
    number in "Rendering n rows..." is their number and [dedupCount] is
    the sum of their duplicate counts; so without [dedupedData] no row is
    on screen in any state, the number shown is 0 and [dedupCount] is 0,
    whatever the raw rows that gave the delay. *)
Theorem raw_delay_deduped_window (p : Props) (d : LogsModel) (t0 : N) (s : State) :
  data p = Some d ->
  delay <$> timers (mount p t0) = [N.of_nat (length (rows d))] /\
  (forall dd, dedupedData p = Some dd ->
     visibleRows p s `prefix_of` rows dd /\
     dedupCount p = duplicateTotal (rows dd) /\
     forall panel n, render p s = Some panel -> renderingRows panel = Some n ->
                     n = length (rows dd)) /\
  (dedupedData p = None ->
     visibleRows p s = [] /\
     dedupCount p = 0 /\
     forall panel n, render p s = Some panel -> renderingRows panel = Some n ->
                     n = 0%nat).
Proof.
  intros Hd.
  assert (Hn : forall panel n, render p s = Some panel -> renderingRows panel = Some n ->
                               n = length (processedRows p)).
  { unfold render. rewrite Hd. intros panel n [= <-]. simpl.
    destruct (hasData p && deferLogs s); congruence. }
  split; [|split].
  - rewrite mount_eq. simpl. unfold rowCount. by rewrite Hd.
  - intros dd Hdd.
    pose proof (visibleRows_prefix p s) as Hpre.
    pose proof (dedupCount_processedRows p) as Hsum.
    unfold processedRows in Hpre, Hsum, Hn. rewrite Hdd in Hpre, Hsum, Hn. done.
  - intros Hnone.
    pose proof (visibleRows_prefix p s) as Hpre.
    pose proof (dedupCount_processedRows p) as Hsum.
    unfold processedRows in Hpre, Hsum, Hn. rewrite Hnone in Hpre, Hsum, Hn.
    split; [by apply prefix_nil_inv|]. done.
Qed.

(** Three raw rows and no deduplicated set: delay 3, nothing on screen
    even when all is revealed. *)
Lemma raw_delay_deduped_window_witness :
  let s := {| deferLogs := false; renderAll := true; showLabels := false; showTime := true |} in
  delay <$> timers (mount smallProps 0) = [3%N] /\
  visibleRows smallProps s = [] /\ dedupCount smallProps = 0.
Proof.
  intros s.
  destruct (raw_delay_deduped_window smallProps _ 0 s eq_refl) as (Hdelay & _ & Hnone).
  destruct (Hnone eq_refl) as (Hwin & Hcount & _).
  split; [exact Hdelay|]. split; [exact Hwin|exact Hcount].
Defined.

(** * Further properties of the component *)

(** ** The row elements *)

Section RowElements.

Implicit Types (p : Props) (s : State) (i : nat) (el : LogRowElement).

Lemma firstBatch_lookup p s i el :
  firstBatch p s !! i = Some el ->
  exists r, processedRows p !! i = Some r /\ el = logRowElement p s i r.
Proof.
  unfold firstBatch, firstRows. rewrite list_lookup_imap.
  destruct (take PREVIEW_LIMIT (processedRows p) !! i) as [r|] eqn:Hr; [|done].
  apply lookup_take_Some in Hr as [Hr Hi]. intros [= <-].
  exists r. split; [done|]. unfold logRowElement. by rewrite decide_True.
Qed.

Lemma lastBatch_lookup p s j el :
  lastBatch p s !! j = Some el ->
  exists r, processedRows p !! (PREVIEW_LIMIT + j)%nat = Some r /\
            el = logRowElement p s (PREVIEW_LIMIT + j) r.
Proof.
  unfold lastBatch, lastRows. rewrite list_lookup_imap, lookup_drop.
  destruct (processedRows p !! (PREVIEW_LIMIT + j)%nat) as [r|]; [|done].
  intros [= <-]. exists r. split; [done|].
  unfold logRowElement. rewrite decide_False by lia. done.
Qed.

(** The second batch has an element only when the first is full. *)
Lemma length_firstBatch_full p s j :
  is_Some (lastBatch p s !! j) -> length (firstBatch p s) = PREVIEW_LIMIT.
Proof.
  intros Hj%lookup_lt_is_Some. unfold lastBatch, firstBatch, lastRows, firstRows in *.
  rewrite length_imap in *. rewrite length_drop in Hj. rewrite length_take. lia.
Qed.

(** The element at position [i] of the rows area, in both batches. *)
Lemma logRows_lookup p s panel i el :
  render p s = Some panel -> logRows panel !! i = Some el ->
  exists r, processedRows p !! i = Some r /\ el = logRowElement p s i r.
Proof.
  unfold render. destruct (data p) as [d|]; [|done]. intros [= <-]. simpl.
  intros [Hi|[Hlen Hi]]%lookup_app_Some.
  - destruct (hasData p && negb (deferLogs s)); [|done]. by apply firstBatch_lookup.
  - destruct (hasData p && negb (deferLogs s)); [|done]. simpl in *.
    destruct (renderAll s); [|done].
    assert (Hfull : length (firstBatch p s) = PREVIEW_LIMIT)
      by (eapply length_firstBatch_full; eauto).
    rewrite Hfull in Hlen, Hi.
    apply lastBatch_lookup in Hi as (r & Hr & ->).
    replace (PREVIEW_LIMIT + (i - PREVIEW_LIMIT))%nat with i in * by lia.
    eauto.
Qed.

End RowElements.

(** X1. The element at position [i] of the rows area has the key [i]
    and shows the row at index [i] of the deduplicated set: the keys of
    the second batch ([PREVIEW_LIMIT + index]) continue those of the
    first, so a row keeps its key when the second batch is added. *)
Theorem row_keys_are_indices (p : Props) (s : State) (panel : Panel) (i : nat)
    (el : LogRowElement) :
  render p s = Some panel ->
  logRows panel !! i = Some el ->
  key el = i /\ processedRows p !! i = Some (row el).
Proof.
  intros Hr Hi. destruct (logRows_lookup _ _ _ _ _ Hr Hi) as (r & Hrow & ->). done.
Qed.

Lemma row_keys_are_indices_witness :
  let s := {| deferLogs := false; renderAll := true; showLabels := true; showTime := true |} in
  exists panel el,
    render laterProps s = Some panel /\ logRows panel !! 3%nat = Some el /\
    key el = 3%nat /\ processedRows laterProps !! 3%nat = Some (row el).
Proof.
  intros s. eexists _, _. split; [reflexivity|]. split; [reflexivity|].
  apply (row_keys_are_indices laterProps s _ 3 _ eq_refl eq_refl).
Defined.

(** X2. A row element gets the highlighter expressions exactly when its
    position is below [PREVIEW_LIMIT]; the rows of the second batch get
    none. *)
Theorem highlighting_first_batch_only (p : Props) (s : State) (panel : Panel) (i : nat)
    (el : LogRowElement) :
  render p s = Some panel ->
  logRows panel !! i = Some el ->
  ((i < PREVIEW_LIMIT)%nat ->
   rowHighlighterExpressions el = Some (highlighterExpressions p)) /\
  ((PREVIEW_LIMIT <= i)%nat -> rowHighlighterExpressions el = None).
Proof.
  intros Hr Hi. destruct (logRows_lookup _ _ _ _ _ Hr Hi) as (r & Hrow & ->). simpl.
  split; intros ?; [by rewrite decide_True|by rewrite decide_False by lia].
Qed.

Lemma highlighting_first_batch_only_witness :
  let s := {| deferLogs := false; renderAll := true; showLabels := false; showTime := true |} in
  exists panel el,
    render laterProps s = Some panel /\ logRows panel !! 0%nat = Some el /\
    rowHighlighterExpressions el = Some (highlighterExpressions laterProps).
Proof.
  intros s. eexists _, _. split; [reflexivity|]. split; [reflexivity|].
  apply (proj1 (highlighting_first_batch_only laterProps s _ 0 _ eq_refl eq_refl)).
  apply Nat.ltb_lt. reflexivity.
Defined.

(** X3. All row elements get the same flags: [showDuplicates] as
    computed for the whole set, the [showTime] of the state, and
    [showLabels] only when the state asks for labels and the deduplicated
    set is present with [hasUniqueLabels]. *)
Theorem row_flags_uniform (p : Props) (s : State) (panel : Panel) (el : LogRowElement) :
  render p s = Some panel ->
  el ∈ logRows panel ->
  rowShowDuplicates el = showDuplicates p /\
  rowShowTime el = showTime s /\
  rowShowLabels el = showLabels s && hasLabel p /\
  (rowShowLabels el = true ->
   showLabels s = true /\ exists dd, dedupedData p = Some dd /\ hasUniqueLabels dd = true).
Proof.
  intros Hr [i Hi]%list_elem_of_lookup.
  destruct (logRows_lookup _ _ _ _ _ Hr Hi) as (r & Hrow & ->). simpl.
  split; [done|]. split; [done|]. split; [done|].
  intros [Hs Hl]%andb_true_iff. split; [done|].
  unfold hasLabel in Hl. apply andb_true_iff in Hl as [_ Hl].
  destruct (dedupedData p) as [dd|]; [eauto|done].
Qed.

Lemma row_flags_uniform_witness :
  let s := {| deferLogs := false; renderAll := false; showLabels := true; showTime := false |} in
  exists panel el,
    render laterProps s = Some panel /\ logRows panel !! 1%nat = Some el /\
    rowShowDuplicates el = true /\ rowShowTime el = false /\ rowShowLabels el = false.
Proof.
  intros s. eexists _, _. split; [reflexivity|].
  match goal with
  | |- ?l !! 1%nat = Some ?el /\ _ =>
      assert (Hel : l !! 1%nat = Some el) by reflexivity;
      destruct (row_flags_uniform laterProps s _ el eq_refl
                  (list_elem_of_lookup_2 l 1%nat el Hel)) as (Hd & Ht & Hl & _)
  end.
  split; [exact Hel|]. rewrite Hd, Ht, Hl. repeat split.
Defined.

(** ** The window *)

(** X4. The rows on screen are never more than the deduplicated set
    has, never more than [PREVIEW_LIMIT] while [renderAll] is off, and
    none when the raw set is absent or empty, whatever the deduplicated
    set holds. *)
Theorem window_bounds (p : Props) (s : State) :
  (length (visibleRows p s) <= length (processedRows p))%nat /\
  (renderAll s = false -> length (visibleRows p s) <= PREVIEW_LIMIT)%nat /\
  (hasData p = false -> visibleRows p s = []).
Proof.
  split; [apply prefix_length, visibleRows_prefix|].
  rewrite visibleRows_spec. split.
  - intros ->. destruct (hasData p && negb (deferLogs s)); simpl; [|lia].
    unfold firstRows. rewrite length_take. lia.
  - by intros ->.
Qed.

(** X5. For the same props, the rows on screen in an earlier phase are
    a prefix of the rows on screen in a later phase: revealing more never
    reorders or drops a row that is shown. *)
Theorem window_grows_with_stage (p : Props) (s1 s2 : State) :
  (stageRank (stage s1) <= stageRank (stage s2))%nat ->
  visibleRows p s1 `prefix_of` visibleRows p s2.
Proof.
  rewrite !visibleRows_spec. unfold stage.
  destruct (hasData p); simpl; [|done].
  destruct (deferLogs s1), (renderAll s1), (deferLogs s2), (renderAll s2);
    simpl; intros Hle; try lia; try done; try apply prefix_nil; apply prefix_take.
Qed.

Lemma window_grows_with_stage_witness :
  let s1 := {| deferLogs := false; renderAll := false; showLabels := false; showTime := true |} in
  let s2 := {| deferLogs := false; renderAll := true; showLabels := false; showTime := true |} in
  visibleRows largeProps s1 `prefix_of` visibleRows largeProps s2.
Proof.
  intros s1 s2. apply (window_grows_with_stage largeProps s1 s2). simpl. lia.
Defined.

(** X6. The regions of the panel exclude each other: with "No logs
    found." there is no row, no "Rendering ..." text, no meta block and no
    scanning block; the "Rendering ..." text and rows are never shown
    together; and without raw rows there is no row, no such text and no
    meta block. *)
Theorem panel_regions (p : Props) (s : State) (panel : Panel) :
  render p s = Some panel ->
  (noLogsFound panel = true ->
   logRows panel = [] /\ renderingRows panel = None /\
   metaBlock panel = None /\ scanBlock panel = None) /\
  (is_Some (renderingRows panel) -> logRows panel = []) /\
  (hasData p = false ->
   logRows panel = [] /\ renderingRows panel = None /\ metaBlock panel = None).
Proof.
  unfold render. destruct (data p) as [d|] eqn:Hd; [|done]. intros [= <-]. simpl.
  destruct (hasData p), (deferLogs s), (renderAll s), (loading p), (scanning p);
    simpl; repeat split; try done; by intros [? ?].
Qed.

Lemma panel_regions_witness :
  let s := {| deferLogs := false; renderAll := true; showLabels := false; showTime := true |} in
  exists panel,
    render emptyProps s = Some panel /\ noLogsFound panel = true /\
    logRows panel = [] /\ metaBlock panel = None.
Proof.
  intros s. eexists. split; [reflexivity|]. split; [reflexivity|].
  destruct (proj1 (panel_regions emptyProps s _ eq_refl) eq_refl) as (Hr & _ & Hm & _).
  split; [exact Hr|exact Hm].
Defined.

(** ** The duplicate count *)

Section Counts.

Implicit Types (l : list LogRowModel).

Lemma duplicateTotal_positive l :
  0 < duplicateTotal l -> exists r d, r ∈ l /\ duplicates r = Some d /\ 0 < d.
Proof.
  induction l as [|r l IH]; simpl; [lia|]. intros Hpos.
  destruct (duplicates r) as [d|] eqn:Hd; simpl in Hpos.
  - destruct (decide (0 < d)) as [Hd0|Hd0].
    + exists r, d. split; [left|done].
    + destruct IH as (r' & d' & ? & ? & ?); [lia|].
      exists r', d'. split; [by right|done].
  - destruct IH as (r' & d' & ? & ? & ?); [lia|].
    exists r', d'. split; [by right|done].
Qed.

Lemma duplicateTotal_nonneg l :
  (forall r d, r ∈ l -> duplicates r = Some d -> 0 <= d) ->
  0 <= duplicateTotal l /\
  (duplicateTotal l = 0 <-> forall r, r ∈ l -> default 0 (duplicates r) = 0).
Proof.
  induction l as [|r l IH]; simpl; intros Hnn.
  - split; [lia|]. split; [|done]. intros _ r Hr. by apply elem_of_nil in Hr.
  - destruct IH as [IH0 IHz]; [intros r' d' ?; apply Hnn; by right|].
    assert (0 <= default 0 (duplicates r)) as Hr.
    { destruct (duplicates r) as [d|] eqn:Hd; simpl; [|lia]. apply (Hnn r d); [left|done]. }
    split; [lia|]. split.
    + intros Hz r' [->|Hin]%elem_of_cons; [lia|]. apply IHz; [lia|done].
    + intros Hall. pose proof (Hall r ltac:(left)) as H0.
      assert (duplicateTotal l = 0); [|lia].
      apply IHz. intros r' ?. apply Hall. by right.
Qed.

End Counts.

(** X7. When [showDuplicates] is on, a strategy is active and some row
    of the deduplicated set carries a positive duplicate count. *)
Theorem showDuplicates_some_row (p : Props) :
  showDuplicates p = true ->
  dedupStrategy p ≠ LogsDedupStrategy.none /\
  exists r d, r ∈ processedRows p /\ duplicates r = Some d /\ 0 < d.
Proof.
  intros [Hs Hc]%showDuplicates_iff. split; [done|].
  apply duplicateTotal_positive. by rewrite <- dedupCount_processedRows.
Qed.

Lemma showDuplicates_some_row_witness :
  exists r d, r ∈ processedRows laterProps /\ duplicates r = Some d /\ 0 < d.
Proof. apply (showDuplicates_some_row laterProps). reflexivity. Defined.

(** X8. When no row carries a negative duplicate count, [dedupCount] is
    not negative, and it is 0 exactly when every row's count is 0 or
    absent. *)
Theorem dedupCount_nonneg (p : Props) :
  (forall r d, r ∈ processedRows p -> duplicates r = Some d -> 0 <= d) ->
  0 <= dedupCount p /\
  (dedupCount p = 0 <-> forall r, r ∈ processedRows p -> default 0 (duplicates r) = 0).
Proof. rewrite dedupCount_processedRows. apply duplicateTotal_nonneg. Qed.

Lemma dedupCount_nonneg_witness : 0 <= dedupCount laterProps.
Proof.
  apply (dedupCount_nonneg laterProps).
  intros r d Hr Hd. simpl in Hr.
  repeat (apply elem_of_cons in Hr as [->|Hr];
          [simpl in Hd; first [discriminate Hd | injection Hd as <-; lia]|]).
  by apply elem_of_nil in Hr.
Defined.

(** ** The meta block *)

(** X9. When the raw set has a row, the meta block lists the raw meta
    items in their order, each rendered by its kind, followed, when a
    strategy is active, by "Dedup count" rendered as the plain number
    [dedupCount]. *)
Theorem metaBlock_entries (p : Props) (s : State) (panel : Panel) (d : LogsModel) :
  render p s = Some panel -> data p = Some d -> rows d ≠ [] ->
  metaBlock panel =
    Some (((fun item => (label item, renderMetaItem (value item) (kind item)))
             <$> default [] (meta d)) ++
          (if decide (dedupStrategy p = LogsDedupStrategy.none) then []
           else [("Dedup count", Plain (VNumber (dedupCount p)))])).
Proof.
  unfold render, hasData, metaItems. intros Hr Hd Hrows. rewrite Hd in Hr.
  injection Hr as <-. simpl.
  destruct (rows d) as [|r l]; [done|]. simpl.
  destruct (decide (dedupStrategy p = LogsDedupStrategy.none)) as [He|Hne].
  - rewrite bool_decide_eq_false_2 by (by intros []). by rewrite app_nil_r.
  - rewrite bool_decide_eq_true_2 by done. by rewrite fmap_app.
Qed.

Lemma metaBlock_entries_witness :
  exists panel,
    render laterProps initialState = Some panel /\
    metaBlock panel = Some [("Dedup count", Plain (VNumber 5))].
Proof.
  eexists. split; [reflexivity|].
  rewrite (metaBlock_entries laterProps initialState _ _ eq_refl eq_refl); [reflexivity|].
  discriminate.
Defined.

(** ** Handlers and deliveries *)

Section Handlers.

Implicit Types (w : Logs) (p : Props).

Lemma set_state_same w : set_state (state w) w = w.
Proof. by destruct w. Qed.

(** [componentDidUpdate] does nothing unless [deferLogs] changed. *)
Lemma componentDidUpdate_same_deferLogs prevProps prevState w :
  deferLogs prevState = deferLogs (state w) ->
  componentDidUpdate prevProps prevState w = w.
Proof.
  intros He. unfold componentDidUpdate. rewrite He.
  by destruct (deferLogs (state w)).
Qed.

End Handlers.

(** X10. [onChangeLabels] and [onChangeTime] replace their own flag of
    the state and nothing else: the other flags, the props, the timer
    properties, the pending timers and the [setTimeout] calls made are as
    before, in any situation; on an unmounted instance they do nothing. *)
Theorem display_toggles (w : Logs) (checked : bool) :
  onChangeLabels checked w =
    (if mounted w then set_state (withShowLabels checked (state w)) w else w) /\
  onChangeTime checked w =
    (if mounted w then set_state (withShowTime checked (state w)) w else w).
Proof.
  unfold onChangeLabels, onChangeTime, setState.
  destruct (mounted w); [|done]. split.
  - change (applyPatch _ (state w)) with (withShowLabels checked (state w)).
    case_decide as He.
    + rewrite He. symmetry. apply set_state_same.
    + by apply componentDidUpdate_same_deferLogs.
  - change (applyPatch _ (state w)) with (withShowTime checked (state w)).
    case_decide as He.
    + rewrite He. symmetry. apply set_state_same.
    + by apply componentDidUpdate_same_deferLogs.
Qed.

(** X11. A delivery of new props to a mounted instance replaces the
    props and nothing else, in any situation: [componentDidUpdate] sets
    no timer and the state is as before. *)
Theorem delivery_keeps_state (w : Logs) (p : Props) :
  mounted w = true ->
  step w (Deliver p) = Some (set_props p w).
Proof.
  intros Hm. simpl. rewrite Hm. f_equal.
  by apply componentDidUpdate_same_deferLogs.
Qed.

Lemma delivery_keeps_state_witness :
  exists w w',
    run (mount largeProps 0) [Elapse 250; Fire 1] = Some w /\
    step w (Deliver smallProps) = Some w' /\
    state w' = state w /\ timers w' = timers w /\ timeouts w' = timeouts w.
Proof.
  eexists _, _. split; [vm_compute; reflexivity|].
  split; [apply delivery_keeps_state; reflexivity|]. done.
Defined.

(** ** Along a trace *)

Section Traces.

Variables (p0 : Props) (t0 : N).

Implicit Types (w : Logs) (e : Event) (evs : list Event).

Lemma step_stageRank w e w' :
  Phase p0 t0 w -> step w e = Some w' ->
  (stageRank (stage (state w)) <= stageRank (stage (state w')))%nat.
Proof.
  intros HP Hstep. destruct (isFire e) eqn:He.
  - destruct e; try done.
    destruct (step_Fire _ _ _ _ _ HP Hstep) as [[-> ->]|[-> ->]]; simpl; [|lia].
    destruct (_ <=? _)%nat; simpl; lia.
  - by rewrite (step_quiet _ _ _ _ _ HP He Hstep).
Qed.

Lemma run_stageRank evs w w' :
  Phase p0 t0 w -> run w evs = Some w' ->
  Phase p0 t0 w' /\ (stageRank (stage (state w)) <= stageRank (stage (state w')))%nat.
Proof.
  intros HP.
  apply (run_invariant
           (fun w1 => Phase p0 t0 w1 /\
                      (stageRank (stage (state w)) <= stageRank (stage (state w1)))%nat)
           (fun _ => True)); [|by apply Forall_true|done].
  intros w1 e w2 [HP1 Hle] _ Hstep. split; [by eapply step_Phase|].
  pose proof (step_stageRank _ _ _ HP1 Hstep). lia.
Qed.

(** Once all is revealed, no event sets a timer. *)
Lemma step_full w e w' :
  Phase p0 t0 w -> stage (state w) = FullyVisible -> step w e = Some w' ->
  timeouts w' = timeouts w /\ timers w' = [].
Proof.
  intros HP Hs Hstep.
  destruct HP as [p sl st t m|p sl st t t1 m|p sl st t m|p sl st t t1 m];
    try discriminate Hs;
    destruct e as [p'|dt|h|c|c|]; destruct m, sl, st; try destruct c;
    cbn -[Nat.leb Nat.mul PREVIEW_LIMIT N.add N.of_nat] in Hstep;
    repeat step_case; done.
Qed.

Lemma stageRank_full (s : State) :
  (2 <= stageRank (stage s))%nat -> stage s = FullyVisible.
Proof. destruct (stage s); simpl; [lia|lia|done]. Qed.

Lemma run_full evs w w' :
  Phase p0 t0 w -> stage (state w) = FullyVisible -> run w evs = Some w' ->
  stage (state w') = FullyVisible /\ timeouts w' = timeouts w /\ timers w' = [].
Proof.
  intros HP Hs Hrun.
  cut (Phase p0 t0 w' /\ stage (state w') = FullyVisible /\
       timeouts w' = timeouts w /\ timers w' = []); [tauto|].
  revert Hrun.
  apply (run_invariant
           (fun w1 => Phase p0 t0 w1 /\ stage (state w1) = FullyVisible /\
                      timeouts w1 = timeouts w /\ timers w1 = [])
           (fun _ => True)); [|by apply Forall_true|].
  - intros w1 e w2 (HP1 & Hs1 & Hl1 & _) _ Hstep.
    destruct (step_full _ _ _ HP1 Hs1 Hstep) as [Hl2 Ht2].
    split; [by eapply step_Phase|]. split; [|split; [congruence|done]].
    apply stageRank_full. pose proof (step_stageRank _ _ _ HP1 Hstep) as Hle.
    by rewrite Hs1 in Hle.
  - repeat split; try done. destruct HP; try discriminate Hs; done.
Qed.

End Traces.

(** X12. The phase never goes back: along any trace of a mounted
    instance, [Deferred] is followed only by [Deferred], [PartialVisible]
    or [FullyVisible], and [PartialVisible] only by [PartialVisible] or
    [FullyVisible], whatever is delivered in between. *)
Theorem stage_never_goes_back (p0 : Props) (t0 : N) (evs1 evs2 : list Event)
    (w1 w2 : Logs) :
  run (mount p0 t0) evs1 = Some w1 ->
  run w1 evs2 = Some w2 ->
  (stageRank (stage (state w1)) <= stageRank (stage (state w2)))%nat.
Proof.
  intros H1 H2. pose proof (run_Phase _ _ _ _ H1) as HP.
  by destruct (run_stageRank _ _ _ _ _ HP H2).
Qed.

Lemma stage_never_goes_back_witness :
  exists w1 w2,
    run (mount largeProps 0) [Elapse 250; Fire 1] = Some w1 /\
    run w1 [Deliver smallProps; ChangeTime false; Elapse 10] = Some w2 /\
    stage (state w1) = PartialVisible /\
    (stageRank (stage (state w1)) <= stageRank (stage (state w2)))%nat.
Proof.
  eexists _, _. split; [vm_compute; reflexivity|]. split; [vm_compute; reflexivity|].
  split; [reflexivity|].
  eapply (stage_never_goes_back largeProps 0 [Elapse 250; Fire 1]
            [Deliver smallProps; ChangeTime false; Elapse 10]);
    vm_compute; reflexivity.
Defined.

(** X13. [FullyVisible] is final: once it is reached no timer is
    pending, and whatever happens afterwards the instance stays
    [FullyVisible], no timer becomes pending and no [setTimeout] call is
    made. *)
Theorem fully_visible_is_final (p0 : Props) (t0 : N) (evs1 evs2 : list Event)
    (w1 w2 : Logs) :
  run (mount p0 t0) evs1 = Some w1 ->
  stage (state w1) = FullyVisible ->
  run w1 evs2 = Some w2 ->
  stage (state w2) = FullyVisible /\
  timers w1 = [] /\ timers w2 = [] /\ timeouts w2 = timeouts w1.
Proof.
  intros H1 Hs H2. pose proof (run_Phase _ _ _ _ H1) as HP.
  destruct (run_full _ _ _ _ _ HP Hs H2) as (? & ? & ?).
  destruct (run_full _ _ [] _ _ HP Hs eq_refl) as (_ & _ & ?). done.
Qed.

Lemma fully_visible_is_final_witness :
  exists w1 w2,
    run (mount smallProps 0) [Elapse 3; Fire 1] = Some w1 /\
    run w1 [Deliver laterProps; Elapse 9000; ChangeLabels true] = Some w2 /\
    stage (state w2) = FullyVisible /\ timers w2 = [] /\ timeouts w2 = timeouts w1.
Proof.
  eexists _, _. split; [vm_compute; reflexivity|]. split; [vm_compute; reflexivity|].
  edestruct (fully_visible_is_final smallProps 0 [Elapse 3; Fire 1]
               [Deliver laterProps; Elapse 9000; ChangeLabels true])
    as (Hs & _ & Ht & Hl); [vm_compute; reflexivity|reflexivity|vm_compute; reflexivity|].
  split; [exact Hs|]. split; [exact Ht|exact Hl].
Defined.

(** X14. An instance never has more than one timer pending, never
    makes more than two [setTimeout] calls in its life, at most one of
    them for the completion timer, and every pending timer comes from one
    of these calls. *)
Theorem timer_budget (p0 : Props) (t0 : N) (evs : list Event) (w : Logs) :
  run (mount p0 t0) evs = Some w ->
  (length (timers w) <= 1)%nat /\
  (length (timeouts w) <= 2)%nat /\
  (length (filter (fun t => isReveal t = false) (timeouts w)) <= 1)%nat /\
  (forall t, t ∈ timers w -> t ∈ timeouts w).
Proof.
  intros Hrun. pose proof (run_Phase _ _ _ _ Hrun) as HP.
  destruct HP; destruct m; simpl; repeat split; try lia; try done;
    intros x; rewrite ?elem_of_cons, ?elem_of_nil; tauto.
Qed.

Lemma timer_budget_witness :
  exists w,
    run (mount largeProps 0) [Elapse 250; Fire 1; Deliver smallProps; Deliver laterProps]
      = Some w /\
    (length (timers w) <= 1)%nat /\ (length (timeouts w) <= 2)%nat.
Proof.
  eexists. split; [vm_compute; reflexivity|].
  edestruct (timer_budget largeProps 0
               [Elapse 250; Fire 1; Deliver smallProps; Deliver laterProps])
    as (H1 & H2 & _); [vm_compute; reflexivity|].
  split; [exact H1|exact H2].
Defined.

(** X15. Before as many milliseconds as the raw set had rows at the
    mount have passed, the instance is [Deferred] and shows no row; with
    more than [2 * PREVIEW_LIMIT] rows at the mount, before 2000
    milliseconds more have passed it is not [FullyVisible] and shows at
    most [PREVIEW_LIMIT] rows. *)
Theorem nothing_shown_early (p0 : Props) (t0 : N) (evs : list Event) (w : Logs) :
  run (mount p0 t0) evs = Some w ->
  ((now w < t0 + N.of_nat (rowCount p0))%N ->
   stage (state w) = Deferred /\ visibleWindow w = []) /\
  ((PREVIEW_LIMIT * 2 < rowCount p0)%nat ->
   (now w < t0 + N.of_nat (rowCount p0) + 2000)%N ->
   stage (state w) ≠ FullyVisible /\
   (length (visibleWindow w) <= PREVIEW_LIMIT)%nat).
Proof.
  intros Hrun. pose proof (run_Phase _ _ _ _ Hrun) as HP. split.
  - intros Hnow.
    assert (Hs : stage (state w) = Deferred) by (destruct HP; simpl in *; try done; lia).
    split; [done|]. apply visibleRows_deferred. by apply stage_Deferred.
  - intros Hn Hnow.
    assert (Hs : renderAll (state w) = false) by (destruct HP; simpl in *; try done; lia).
    split.
    + unfold stage. rewrite Hs. by destruct (deferLogs (state w)).
    + unfold visibleWindow. rewrite visibleRows_spec, Hs.
      destruct (hasData _ && _); simpl; [|lia].
      unfold firstRows. rewrite length_take. lia.
Qed.

Lemma nothing_shown_early_witness :
  exists w,
    run (mount largeProps 0) [Elapse 249; Deliver laterProps] = Some w /\
    stage (state w) = Deferred /\ visibleWindow w = [].
Proof.
  eexists. split; [vm_compute; reflexivity|].
  match goal with
  | |- stage (state ?w) = _ /\ _ =>
      assert (Hrun : run (mount largeProps 0) [Elapse 249; Deliver laterProps] = Some w)
        by (vm_compute; reflexivity);
      apply (proj1 (nothing_shown_early largeProps 0 _ w Hrun))
  end.
  vm_compute. reflexivity.
Defined.

(** X16. Whether the reveal goes to [FullyVisible] at once or to
    [PartialVisible] is decided by the raw row count at the mount, not by
    the props of the moment: after a mount with few rows, a large delivery
    is shown in full at once. The reveal does not happen before the delay
    of the mount has passed. *)
Theorem staging_fixed_at_mount (p0 : Props) (t0 : N) (evs : list Event) (w w' : Logs)
    (h : positive) :
  run (mount p0 t0) evs = Some w ->
  stage (state w) = Deferred ->
  step w (Fire h) = Some w' ->
  stage (state w') =
    (if (rowCount p0 <=? PREVIEW_LIMIT * 2)%nat then FullyVisible else PartialVisible) /\
  (t0 + N.of_nat (rowCount p0) <= now w')%N.
Proof.
  intros Hrun Hs Hstep. pose proof (run_Phase _ _ _ _ Hrun) as HP.
  pose proof (step_Phase _ _ _ _ _ HP Hstep) as HP'.
  destruct (step_Fire _ _ _ _ _ HP Hstep) as [[_ Hs']|[Hp _]]; [|congruence].
  split; [done|].
  destruct HP'; simpl in Hs' |- *; try lia.
  unfold stage in Hs'. simpl in Hs'. by destruct (_ <=? _)%nat.
Qed.

Lemma staging_fixed_at_mount_witness :
  exists w w',
    run (mount smallProps 0) [Deliver largeProps; Elapse 3] = Some w /\
    step w (Fire 1) = Some w' /\
    rowCount (props w') = 250%nat /\
    stage (state w') = FullyVisible /\
    length (visibleWindow w') = 250%nat.
Proof.
  eexists _, _. split; [vm_compute; reflexivity|]. split; [vm_compute; reflexivity|].
  split; [reflexivity|]. split; [|reflexivity].
  match goal with
  | |- stage (state ?w') = _ =>
      assert (Hrun : run (mount smallProps 0) [Deliver largeProps; Elapse 3]
                     = Some (set_now 3 (set_props largeProps (mount smallProps 0))))
        by (vm_compute; reflexivity);
      assert (Hstep : step (set_now 3 (set_props largeProps (mount smallProps 0))) (Fire 1)
                      = Some w')
        by (vm_compute; reflexivity);
      exact (proj1 (staging_fixed_at_mount smallProps 0 _ _ w' 1 Hrun eq_refl Hstep))
  end.
Defined.

(** X17. Unmounting in any phase, also with the completion timer
    pending, leaves no timer pending and makes no [setTimeout] call;
    whatever happens afterwards the state is the one at the unmount, no
    timer callback can run and the instance cannot be unmounted again. *)
Theorem unmount_any_phase (p0 : Props) (t0 : N) (pre post : list Event)
    (w w' w'' : Logs) (h : positive) :
  run (mount p0 t0) pre = Some w ->
  step w Unmount = Some w' ->
  run w' post = Some w'' ->
  timers w' = [] /\ timeouts w' = timeouts w /\
  state w'' = state w /\ step w'' (Fire h) = None /\ step w'' Unmount = None.
Proof.
  intros Hpre Hun Hpost. pose proof (run_Phase _ _ _ _ Hpre) as HP.
  destruct (step_Unmount _ _ _ _ HP Hun) as (Hm & Ht & Hst).
  destruct (run_unmounted _ _ _ Hm Ht Hpost) as (Hm' & Ht' & Hst').
  split; [done|]. split.
  - simpl in Hun. destruct (mounted w); [|done]. injection Hun as <-.
    unfold componentWillUnmount.
    destruct (deferLogsTimer w), (renderAllTimer w) eqn:E; simpl; rewrite ?E; done.
  - split; [congruence|]. split; [by apply step_Fire_none|].
    simpl. by rewrite Hm'.
Qed.

Lemma unmount_any_phase_witness :
  exists w w' w'',
    run (mount largeProps 0) [Elapse 250; Fire 1; Elapse 1000] = Some w /\
    timers w = [completeTimer 250] /\
    step w Unmount = Some w' /\
    run w' [Elapse 5000] = Some w'' /\
    timers w' = [] /\ stage (state w'') = PartialVisible /\ step w'' (Fire 2) = None.
Proof.
  eexists _, _, _.
  split; [vm_compute; reflexivity|]. split; [reflexivity|].
  split; [vm_compute; reflexivity|]. split; [vm_compute; reflexivity|].
  edestruct (unmount_any_phase largeProps 0 [Elapse 250; Fire 1; Elapse 1000] [Elapse 5000])
    as (Ht & _ & Hs & Hf & _);
    [vm_compute; reflexivity|vm_compute; reflexivity|vm_compute; reflexivity|].
  split; [exact Ht|]. split; [reflexivity|exact Hf].
Defined.

(** X18. A mount without raw rows ([data] absent or empty) sets the
    reveal timer with delay 0: it can fire without any time passing, goes
    to [FullyVisible] at once, sets no completion timer, and still no row
    is on screen. *)
Theorem empty_mount_reveals_at_once (p : Props) (t0 : N) :
  rowCount p = 0%nat ->
  delay <$> timers (mount p t0) = [0%N] /\
  step (mount p t0) (Fire 1) = Some (directAt p t0 t0) /\
  visibleWindow (directAt p t0 t0) = [].
Proof.
  intros Hn. split; [by rewrite mount_eq; simpl; rewrite Hn|]. split.
  - rewrite mount_eq. unfold directAt, revealTimer. rewrite Hn.
    cbn -[Nat.leb Nat.mul PREVIEW_LIMIT N.add N.of_nat].
    repeat (step_case; try done; try lia).
  - unfold visibleWindow. rewrite visibleRows_spec. simpl.
    destruct (hasData p) eqn:Hd; [|done]. apply hasData_rowCount in Hd. lia.
Qed.

Lemma empty_mount_reveals_at_once_witness :
  step (mount emptyProps 7) (Fire 1) = Some (directAt emptyProps 7 7) /\
  visibleWindow (directAt emptyProps 7 7) = [].
Proof.
  destruct (empty_mount_reveals_at_once emptyProps 7 eq_refl) as (_ & Hstep & Hwin).
  split; [exact Hstep|exact Hwin].
Defined.

(** ** Level names *)

(** X19. The array [onToggleLogLevel] passes on holds values of
    members only exactly when every name is a member of the enum; it
    holds [undefined] exactly when some name is neither a member nor
    defined by [Object.prototype]; and it holds the inherited value of a
    name exactly when that name is given, is no member and is defined by
    [Object.prototype]. *)
Theorem onToggleLogLevel_defined (LogLevelEnum : gmap string LogLevel)
    (ObjectPrototype : gset string) (hiddenRawLevels : list string) :
  exists hiddenLogLevels,
    onToggleLogLevel LogLevelEnum ObjectPrototype hiddenRawLevels
      = [ToggleLogLevel hiddenLogLevels] /\
    (Forall isMemberValue hiddenLogLevels <->
     Forall (fun level => level ∈ dom LogLevelEnum) hiddenRawLevels) /\
    (UndefinedValue ∈ hiddenLogLevels <->
     exists level, level ∈ hiddenRawLevels /\
                   (level ∉ dom LogLevelEnum) /\ (level ∉ ObjectPrototype)) /\
    (forall name,
       InheritedValue name ∈ hiddenLogLevels <->
       name ∈ hiddenRawLevels /\ (name ∉ dom LogLevelEnum) /\ name ∈ ObjectPrototype).
Proof.
  eexists. split; [reflexivity|]. split; [|split].
  - rewrite Forall_fmap. apply Forall_iff. intros level. simpl.
    rewrite elem_of_dom. unfold readLogLevel.
    destruct (LogLevelEnum !! level) as [v|]; simpl.
    + split; [by eexists|done].
    + split; [by case_decide|by intros [? ?]].
  - rewrite list_elem_of_fmap. split.
    + intros (level & Hl & Hin). exists level. split; [done|].
      rewrite not_elem_of_dom. unfold readLogLevel in Hl.
      destruct (LogLevelEnum !! level); [done|]. by case_decide.
    + intros (level & Hin & Hl & Hp). exists level. split; [|done].
      apply not_elem_of_dom in Hl. unfold readLogLevel. rewrite Hl.
      by rewrite decide_False.
  - intros name. rewrite list_elem_of_fmap. split.
    + intros (level & Hl & Hin). unfold readLogLevel in Hl.
      destruct (LogLevelEnum !! level) eqn:He; [done|].
      case_decide; [|done]. injection Hl as ->.
      by rewrite not_elem_of_dom.
    + intros (Hin & Hl & Hp). exists name. split; [|done].
      apply not_elem_of_dom in Hl. unfold readLogLevel. rewrite Hl.
      by rewrite decide_True.
Qed.
